(** * The research-and-write pipeline of [main.py]

    A shallow embedding of the Streamlit script: the completion client
    [call_groq_api], the context gatherer ([web_search], [wikipedia_search],
    [conduct_research]), the three prompt stages and the main execution
    block that chains them.

    The script talks to three services and to the Streamlit front end.  The
    services answer through a [world] of transport functions; each call and
    each front-end message is appended to a [trace], so that "no network
    call was made" or "the article stage never ran" are statements about
    the trace of a run. *)

From Stdlib Require Import List ZArith NArith Lia Bool String Ascii DecimalString.
Import ListNotations.

Set Warnings "-register-all".

(** ** Python strings *)

(** A Python [str] is a sequence of Unicode code points. *)
Definition pystr := list N.

(** A literal of the source, written in ASCII. *)
Definition py (s : string) : pystr := map N_of_ascii (list_ascii_of_string s).

(** The characters a literal of this file cannot hold. *)
Definition dq : pystr := [34%N].
Definition nl : pystr := [10%N].

(** Lines of a multi-line literal, joined by newlines. *)
Fixpoint joinl (ls : list string) : pystr :=
  match ls with
  | [] => []
  | [l] => py l
  | l :: rest => py l ++ nl ++ joinl rest
  end.

Fixpoint str_eqb (a b : pystr) : bool :=
  match a, b with
  | [], [] => true
  | c :: a', d :: b' => N.eqb c d && str_eqb a' b'
  | _, _ => false
  end.

(** [s.startswith(p)] *)
Fixpoint startswith (s p : pystr) {struct p} : bool :=
  match p, s with
  | [], _ => true
  | c :: p', d :: s' => N.eqb c d && startswith s' p'
  | _ :: _, [] => false
  end.

(** [needle in hay], for two strings. *)
Fixpoint str_in (needle hay : pystr) : bool :=
  startswith hay needle
  || match hay with
     | [] => false
     | _ :: rest => str_in needle rest
     end.

(** [s.lower()].  Python lower-cases a code point outside ASCII to code
    points outside ASCII, two apart: KELVIN SIGN (U+212A) becomes [k] and
    LATIN CAPITAL LETTER I WITH DOT ABOVE (U+0130) becomes [i] followed by
    U+0307.  The source only searches the lower-cased text for ASCII words,
    so every other code point outside ASCII is left in place. *)
Definition lower_char (c : N) : pystr :=
  if (65 <=? c)%N && (c <=? 90)%N then [(c + 32)%N]
  else if (c =? 8490)%N then [107%N]
  else if (c =? 304)%N then [105%N; 775%N]
  else [c].

Definition lower (s : pystr) : pystr := flat_map lower_char s.

(** [str(n)] for an [int]. *)
Definition str_of_Z (z : Z) : pystr := py (NilZero.string_of_int (Z.to_int z)).

(** [len(s)] *)
Definition len {A} (l : list A) : Z := Z.of_nat (List.length l).

(** ** Python values

    What [response.json()] returns, and so what travels through the
    pipeline: the source never checks that a field of a response is a
    string. *)
Inductive value :=
| VNone
| VBool (b : bool)
| VNum (literal : pystr)
| VStr (s : pystr)
| VList (l : list value)
| VDict (d : list (pystr * value)).

(** A [dict] is kept as an association list; the first binding of a key is
    the one the dictionary holds. *)
Fixpoint lookup (k : pystr) (d : list (pystr * value)) : option value :=
  match d with
  | [] => None
  | (k', v) :: rest => if str_eqb k' k then Some v else lookup k rest
  end.

Fixpoint keys_of (d : list (pystr * value)) : list pystr :=
  match d with
  | [] => []
  | (k, _) :: rest =>
      k :: filter (fun k' => negb (str_eqb k k')) (keys_of rest)
  end.

(** ** Exceptions

    The classes the handlers of the source tell apart, with the subclass
    relation of [requests]: a [ConnectTimeout] is both a [Timeout] and a
    [ConnectionError]; the [JSONDecodeError] of recent [requests] is both a
    [RequestException] and a [json.JSONDecodeError].  Every class here
    derives from [Exception]. *)
Inductive exn_class :=
| Timeout
| ConnectTimeout
| ConnectionError
| RequestsJSONDecodeError
| RequestException
| JSONDecodeError
| KeyError
| TypeError
| AttributeError
| IndexError
| DisambiguationError (options : list pystr)
| PageError
| OtherException.

(** [exn_str] is [str(e)]. *)
Record exn := { cls : exn_class; exn_str : pystr }.

Definition is_Timeout (e : exn) : bool :=
  match cls e with Timeout | ConnectTimeout => true | _ => false end.

Definition is_ConnectionError (e : exn) : bool :=
  match cls e with ConnectionError | ConnectTimeout => true | _ => false end.

Definition is_RequestException (e : exn) : bool :=
  match cls e with
  | Timeout | ConnectTimeout | ConnectionError
  | RequestsJSONDecodeError | RequestException => true
  | _ => false
  end.

Definition is_JSONDecodeError (e : exn) : bool :=
  match cls e with
  | JSONDecodeError | RequestsJSONDecodeError => true
  | _ => false
  end.

Definition is_KeyError (e : exn) : bool :=
  match cls e with KeyError => true | _ => false end.

(** The text the interpreter gives to what it prints or raises is not in the
    source: [repr] is Python's [repr] of a value, [fault_text] the message
    of an exception the interpreter raises for an operation on an
    operand. *)
Record runtime := {
  repr : value -> pystr;
  fault_text : exn_class -> string -> value -> pystr
}.

Section PythonOperations.

Variable rt : runtime.

Definition fault (c : exn_class) (op : string) (v : value) : exn :=
  {| cls := c; exn_str := fault_text rt c op v |}.

(** [f"{v}"] and [str(v)] *)
Definition py_str (v : value) : pystr :=
  match v with
  | VStr s => s
  | _ => repr rt v
  end.

(** [v.get(k, dflt)] *)
Definition py_get (v : value) (k : pystr) (dflt : value) : exn + value :=
  match v with
  | VDict d => inr (match lookup k d with Some x => x | None => dflt end)
  | _ => inl (fault AttributeError "get" v)
  end.

(** [v.lower()] *)
Definition py_lower (v : value) : exn + pystr :=
  match v with
  | VStr s => inr (lower s)
  | _ => inl (fault AttributeError "lower" v)
  end.

(** [k in v], for a string [k]: a substring of a string, an element of a
    list, a key of a dictionary. *)
Definition py_in (k : pystr) (v : value) : exn + bool :=
  match v with
  | VStr s => inr (str_in k s)
  | VList l =>
      inr (existsb (fun x => match x with
                             | VStr s => str_eqb s k
                             | _ => false
                             end) l)
  | VDict d => inr (match lookup k d with Some _ => true | None => false end)
  | _ => inl (fault TypeError "in" v)
  end.

(** [v[k]], for a string [k]. *)
Definition py_getitem (v : value) (k : pystr) : exn + value :=
  match v with
  | VDict d =>
      match lookup k d with
      | Some x => inr x
      | None => inl (fault KeyError "getitem" (VStr k))
      end
  | _ => inl (fault TypeError "getitem" v)
  end.

(** [v[0]].  The keys of a parsed JSON object are strings, so [0] is never
    one of them. *)
Definition py_getitem0 (v : value) : exn + value :=
  match v with
  | VList (x :: _) => inr x
  | VList [] => inl (fault IndexError "getitem" v)
  | VStr (c :: _) => inr (VStr [c])
  | VStr [] => inl (fault IndexError "getitem" v)
  | VDict _ => inl (fault KeyError "getitem" v)
  | _ => inl (fault TypeError "getitem" v)
  end.

(** [len(v)] *)
Definition py_len (v : value) : exn + Z :=
  match v with
  | VStr s => inr (len s)
  | VList l => inr (len l)
  | VDict d => inr (len (keys_of d))
  | _ => inl (fault TypeError "len" v)
  end.

(** The elements [for x in v] goes through. *)
Definition py_iter (v : value) : exn + list value :=
  match v with
  | VList l => inr l
  | VDict d => inr (map VStr (keys_of d))
  | VStr s => inr (map (fun c => VStr [c]) s)
  | _ => inl (fault TypeError "iter" v)
  end.

End PythonOperations.

(** ** The services and the front end *)

(** What [requests.post] hands back.  [json] is the outcome of
    [response.json()]: the parsed body, or the exception the call raises. *)
Record response := {
  status_code : Z;
  text : pystr;
  json : exn + value
}.

(** The request [call_groq_api] sends.  The remaining fields of the body are
    constants of the source: temperature 0.7, top_p 1.0, stream False, and
    the call has a timeout of 120 seconds. *)
Record groq_request := {
  authorization : pystr;
  model : pystr;
  content : pystr;
  max_tokens : Z
}.

(** The request [web_search] sends. *)
Record serper_request := {
  x_api_key : pystr;
  q : pystr;
  num : Z
}.

(** What [wikipedia.page] returns, as far as the source reads it. *)
Record wikipedia_page := {
  page_url : pystr;
  page_title : pystr
}.

(** The Streamlit calls of the pipeline. *)
Inductive st := st_write | st_info | st_success | st_warning | st_error
              | st_code | st_markdown.

(** What a run does that the outside can see, in order. *)
Inductive event :=
| Ui (call : st) (arg : value)
| SerperPost (r : serper_request)
| WikipediaSummary (topic : pystr)
| WikipediaPage (topic : pystr)
| GroqPost (r : groq_request)
| Sleep (seconds : Z).

Definition trace := list event.

(** The environment of a run: the two keys read from the environment and the
    model picked in the select box. *)
Record config := {
  SERPER_API_KEY : option pystr;
  GROQ_API_KEY : option pystr;
  model_choice : pystr
}.

(** The services.  An answer may depend on everything the run has done so
    far, so each transport is given the trace up to the call. *)
Record world := {
  serper : trace -> serper_request -> exn + response;
  wikipedia_summary : trace -> pystr -> exn + pystr;
  wikipedia_page_of : trace -> pystr -> exn + wikipedia_page;
  groq : trace -> groq_request -> exn + response;
  python : runtime
}.

(** ** The monad of the script

    A computation extends the trace and returns a value, raises an
    exception, or stops the script: [st.stop()] raises Streamlit's
    [StopException], which is not an [Exception], so that no handler of the
    source catches it. *)
Inductive res (A : Type) :=
| Val (a : A)
| Exc (e : exn)
| Stop.

Arguments Val {A} a.
Arguments Exc {A} e.
Arguments Stop {A}.

Definition M (A : Type) := trace -> trace * res A.

Definition ret {A} (a : A) : M A := fun t => (t, Val a).

Definition bind {A B} (m : M A) (f : A -> M B) : M B :=
  fun t =>
    let (t', r) := m t in
    match r with
    | Val a => f a t'
    | Exc e => (t', Exc e)
    | Stop => (t', Stop)
    end.

Definition raise {A} (e : exn) : M A := fun t => (t, Exc e).

Definition st_stop {A} : M A := fun t => (t, Stop).

Definition emit (ev : event) : M unit := fun t => (t ++ [ev], Val tt).

(** [try: m  except Exception as e: h e] *)
Definition try_except {A} (m : M A) (h : exn -> M A) : M A :=
  fun t =>
    let (t', r) := m t in
    match r with
    | Exc e => h e t'
    | _ => (t', r)
    end.

Definition lift {A} (r : exn + A) : M A :=
  match r with
  | inl e => raise e
  | inr a => ret a
  end.

(** Sequencing of the operations that may raise but have no effect. *)
Definition bindE {A B} (r : exn + A) (f : A -> exn + B) : exn + B :=
  match r with
  | inl e => inl e
  | inr a => f a
  end.

Declare Scope py_scope.
Delimit Scope py_scope with py_scope.
Notation "x <- m ;; k" := (bind m (fun x => k))
  (at level 61, m at next level, right associativity) : py_scope.
Notation "m ;; k" := (bind m (fun _ => k))
  (at level 61, right associativity) : py_scope.
Notation "x <~ r ;; k" := (bindE r (fun x => k))
  (at level 61, r at next level, right associativity) : py_scope.
Local Open Scope py_scope.

(** [not key], for a key read by [os.getenv]: missing or empty. *)
Definition falsy (key : option pystr) : bool :=
  match key with
  | None | Some [] => true
  | Some (_ :: _) => false
  end.

Definition key_text (key : option pystr) : pystr :=
  match key with
  | Some s => s
  | None => []
  end.

Section Script.

Variable cfg : config.
Variable w : world.

Local Abbreviation rt := (python w).

(** ** The completion client *)

Definition truncation_marker : pystr :=
  nl ++ nl ++ py "[Content truncated due to length]".

(** The prompt as sent (lines 99-101). *)
Definition sent_prompt (prompt : pystr) : pystr :=
  if (15000 <? len prompt)%Z
  then firstn (Z.to_nat 15000) prompt ++ truncation_marker
  else prompt.

(** [headers] and [data] of lines 94-112. *)
Definition groq_data (prompt : pystr) (max_tokens : Z) : groq_request :=
  {| authorization := py "Bearer " ++ key_text (GROQ_API_KEY cfg);
     model := model_choice cfg;
     content := sent_prompt prompt;
     max_tokens := Z.min max_tokens 4000 |}.

Definition post_groq (req : groq_request) : M response :=
  fun t =>
    (t ++ [GroqPost req],
     match groq w t req with
     | inl e => Exc e
     | inr r => Val r
     end).

(** The status 400 branch (lines 122-139): the inner [try] and its
    handler. *)
Definition bad_request (response : response) : exn + value :=
  match
    error_info <~ json response ;;
    error <~ py_get rt error_info (py "error") (VDict []) ;;
    error_message <~ py_get rt error (py "message") (VStr (py "Unknown 400 error")) ;;
    error' <~ py_get rt error_info (py "error") (VDict []) ;;
    error_type <~ py_get rt error' (py "type") (VStr (py "Unknown type")) ;;
    lowered <~ py_lower rt error_message ;;
    if str_in (py "model") lowered then
      inr (VStr (py "Error: Model '" ++ model_choice cfg
                 ++ py "' not available. Try: llama-3.1-8b-instant"))
    else if str_in (py "token") lowered then
      inr (VStr (py "Error: Token limit issue. " ++ py_str rt error_message))
    else if str_in (py "rate") lowered then
      inr (VStr (py "Error: Rate limit exceeded. " ++ py_str rt error_message))
    else
      inr (VStr (py "Error 400: " ++ py_str rt error_message
                 ++ py " (Type: " ++ py_str rt error_type ++ py ")"))
  with
  | inl e =>
      if is_JSONDecodeError e then
        inr (VStr (py "Error 400: Invalid request format. Response: "
                   ++ firstn 200 (text response)))
      else inl e
  | inr v => inr v
  end.

(** ['choices' not in result or len(result['choices']) == 0] *)
Definition no_choices (result : value) : exn + bool :=
  present <~ py_in rt (py "choices") result ;;
  if negb present then inr true
  else
    choices <~ py_getitem rt result (py "choices") ;;
    n <~ py_len rt choices ;;
    inr (n =? 0)%Z.

(** The body of the outer [try] once the response is there
    (lines 122-153). *)
Definition read_response (response : response) : exn + value :=
  if (status_code response =? 400)%Z then bad_request response
  else if (status_code response =? 401)%Z then
    inr (VStr (py "Error 401: Invalid API key. Please check your Groq API key."))
  else if (status_code response =? 429)%Z then
    inr (VStr (py "Error 429: Rate limit exceeded. Please wait a moment and try again."))
  else if negb (status_code response =? 200)%Z then
    inr (VStr (py "Error " ++ str_of_Z (status_code response) ++ py ": "
               ++ firstn 300 (text response)))
  else
    result <~ json response ;;
    missing <~ no_choices result ;;
    if missing then
      inr (VStr (py "Error: Unexpected response format: " ++ py_str rt result))
    else
      choices <~ py_getitem rt result (py "choices") ;;
      choice <~ py_getitem0 rt choices ;;
      message <~ py_getitem rt choice (py "message") ;;
      py_getitem rt message (py "content").

(** The handlers of the outer [try] (lines 155-166), in their order. *)
Definition groq_except (e : exn) : value :=
  if is_Timeout e then
    VStr (py "Error: Request timed out. Groq API is taking too long to respond.")
  else if is_ConnectionError e then
    VStr (py "Error: Cannot connect to Groq API. Check your internet connection.")
  else if is_RequestException e then
    VStr (py "Error: Network issue: " ++ exn_str e)
  else if is_JSONDecodeError e then
    VStr (py "Error: Invalid JSON response from Groq API: " ++ exn_str e)
  else if is_KeyError e then
    VStr (py "Error: Missing field in API response: " ++ exn_str e)
  else
    VStr (py "Error: Unexpected issue: " ++ exn_str e).

Definition call_groq_api (prompt : pystr) (max_tokens : Z) : M value :=
  if falsy (GROQ_API_KEY cfg) then
    ret (VStr (py "Error: Groq API key not found."))
  else if negb (startswith (key_text (GROQ_API_KEY cfg)) (py "gsk_")) then
    ret (VStr (py "Error: Invalid Groq API key format. Key should start with 'gsk_'"))
  else
    try_except
      (response <- post_groq (groq_data prompt max_tokens) ;;
       lift (read_response response))
      (fun e => ret (groq_except e)).

(** ** The context gatherer *)

(** One entry of [search_results]: a dictionary with these three keys. *)
Record search_hit := {
  title : value;
  snippet : value;
  link : value
}.

(** What [wikipedia_search] returns: a dictionary with these three keys. *)
Record wiki_info := {
  summary : pystr;
  url : pystr;
  wiki_title : pystr
}.

Record research_data := {
  web_results : list search_hit;
  wikipedia : wiki_info;
  search_queries : list pystr
}.

Definition post_serper (req : serper_request) : M response :=
  fun t =>
    (t ++ [SerperPost req],
     match serper w t req with
     | inl e => Exc e
     | inr r => Val r
     end).

(** [response.raise_for_status()]: an [HTTPError], a [RequestException],
    for a status from 400 to 599. *)
Definition raise_for_status (response : response) : exn + unit :=
  if (400 <=? status_code response)%Z && (status_code response <? 600)%Z
  then inl (fault rt RequestException "raise_for_status"
              (VNum (str_of_Z (status_code response))))
  else inr tt.

(** The loop of lines 74-79. *)
Fixpoint collect_hits (organic : list value) : exn + list search_hit :=
  match organic with
  | [] => inr []
  | result :: rest =>
      t <~ py_get rt result (py "title") (VStr []) ;;
      s <~ py_get rt result (py "snippet") (VStr []) ;;
      l <~ py_get rt result (py "link") (VStr []) ;;
      hits <~ collect_hits rest ;;
      inr ({| title := t; snippet := s; link := l |} :: hits)
  end.

(** Lines 70-80. *)
Definition read_results (response : response) : exn + list search_hit :=
  results <~ json response ;;
  present <~ py_in rt (py "organic") results ;;
  if present then
    organic <~ py_getitem rt results (py "organic") ;;
    items <~ py_iter rt organic ;;
    collect_hits items
  else inr [].

Definition web_search (query : pystr) (num_results : Z) : M (list search_hit) :=
  if falsy (SERPER_API_KEY cfg) then ret []
  else
    try_except
      (response <- post_serper {| x_api_key := key_text (SERPER_API_KEY cfg);
                                  q := query;
                                  num := num_results |} ;;
       _ <- lift (raise_for_status response) ;;
       lift (read_results response))
      (fun e =>
         emit (Ui st_warning (VStr (py "Web search error: " ++ exn_str e))) ;;
         ret []).

Definition get_summary (topic : pystr) : M pystr :=
  fun t =>
    (t ++ [WikipediaSummary topic],
     match wikipedia_summary w t topic with
     | inl e => Exc e
     | inr s => Val s
     end).

Definition get_page (topic : pystr) : M wikipedia_page :=
  fun t =>
    (t ++ [WikipediaPage topic],
     match wikipedia_page_of w t topic with
     | inl e => Exc e
     | inr p => Val p
     end).

(** The two handlers of [wikipedia_search]; an exception of another class
    leaves the function. *)
Definition wikipedia_except (e : exn) : M wiki_info :=
  match cls e with
  | DisambiguationError options =>
      ret {| summary := py "Multiple topics found: "
                        ++ repr rt (VList (map VStr (firstn 5 options)));
             url := [];
             wiki_title := [] |}
  | PageError =>
      ret {| summary := py "No Wikipedia page found for this topic.";
             url := [];
             wiki_title := [] |}
  | _ => raise e
  end.

Definition wikipedia_search (topic : pystr) : M wiki_info :=
  try_except
    (s <- get_summary topic ;;
     page <- get_page topic ;;
     ret {| summary := s; url := page_url page; wiki_title := page_title page |})
    wikipedia_except.

Definition queries_for (topic : pystr) : list pystr :=
  [ topic ++ py " latest developments 2024";
    topic ++ py " trends applications";
    topic ++ py " challenges opportunities future" ].

(** The loop of lines 180-183. *)
Fixpoint search_all (queries : list pystr) (all_results : list search_hit)
  : M (list search_hit) :=
  match queries with
  | [] => ret all_results
  | query :: rest =>
      results <- web_search query 3 ;;
      _ <- emit (Sleep 1) ;;
      search_all rest (all_results ++ results)
  end.

Definition step1 : pystr :=
  [128269%N] ++ py " **Step 1: Conducting web research...**".

Definition conduct_research (topic : pystr) : M research_data :=
  emit (Ui st_write (VStr step1)) ;;
  all_results <- search_all (queries_for topic) [] ;;
  wiki <- wikipedia_search topic ;;
  emit (Ui st_success
          (VStr ([9989%N] ++ py " Found " ++ str_of_Z (len all_results)
                 ++ py " web sources + Wikipedia reference"))) ;;
  ret {| web_results := all_results;
         wikipedia := wiki;
         search_queries := queries_for topic |}.

(** ** The three stages *)

(** [sep.join(items)] *)
Fixpoint join (sep : pystr) (items : list pystr) : pystr :=
  match items with
  | [] => []
  | [x] => x
  | x :: rest => x ++ sep ++ join sep rest
  end.

Definition hit_context (result : search_hit) : pystr :=
  py "Title: " ++ py_str rt (title result) ++ nl
  ++ py "Content: " ++ py_str rt (snippet result) ++ nl
  ++ py "Source: " ++ py_str rt (link result) ++ nl.

Definition research_prompt (topic : pystr) (data : research_data) : pystr :=
  let web_context := join nl (map hit_context (firstn 10 (web_results data))) in
  let wiki_context := py "Wikipedia Summary: " ++ summary (wikipedia data) in
  joinl [ EmptyString;
          "    You are a senior researcher. Analyze the following information about " ]%string
  ++ dq ++ topic ++ dq
  ++ joinl [ " and create a comprehensive research report.";
             EmptyString;
             "    WEB SEARCH RESULTS:";
             "    " ]%string
  ++ web_context
  ++ joinl [ EmptyString;
             EmptyString;
             "    WIKIPEDIA REFERENCE:";
             "    " ]%string
  ++ wiki_context
  ++ joinl [ EmptyString;
             EmptyString;
             "    Create a structured research report that includes:";
             "    1. Executive Summary";
             "    2. Key Findings and Current Trends";
             "    3. Applications and Use Cases";
             "    4. Challenges and Limitations";
             "    5. Future Outlook";
             "    6. Key Statistics (if available)";
             "    7. Important Sources";
             EmptyString;
             "    Make the report informative, well-organized, and based on the provided research data.";
             "    Focus on accuracy and cite relevant information from the sources.";
             "    " ]%string.

Definition step2 : pystr :=
  [128221%N] ++ py " **Step 2: Analyzing research and generating report...**".

Definition generate_research_report (topic : pystr) (data : research_data)
  : M value :=
  emit (Ui st_write (VStr step2)) ;;
  call_groq_api (research_prompt topic data) 2500.

(** The two options of the research-depth radio button. *)
Inductive depth := Basic | Detailed.

Definition depth_instruction (research_depth : depth) : pystr :=
  match research_depth with
  | Detailed =>
      py "Create a detailed, comprehensive article (1500-2000 words) with in-depth analysis."
  | Basic =>
      py "Create a well-structured article (800-1200 words) covering the key points."
  end.

Definition article_prompt (topic language : pystr) (research_report : value)
    (research_depth : depth) : pystr :=
  joinl [ EmptyString;
          "    You are a professional content writer. Based on the research report below, write an engaging article about " ]%string
  ++ dq ++ topic ++ dq ++ py " in " ++ language
  ++ joinl [ ".";
             EmptyString;
             "    RESEARCH REPORT:";
             "    " ]%string
  ++ py_str rt research_report
  ++ joinl [ EmptyString;
             EmptyString;
             "    REQUIREMENTS:";
             "    - Write entirely in " ]%string
  ++ language
  ++ joinl [ " language";
             "    - " ]%string
  ++ depth_instruction research_depth
  ++ joinl [ EmptyString;
             "    - Structure: Introduction, Main Body (3-4 sections), Conclusion";
             "    - Use clear headings and subheadings";
             "    - Make it accessible to both technical and general audiences";
             "    - Include relevant examples and insights from the research";
             "    - Ensure proper flow and engaging style";
             "    - Add a compelling introduction and strong conclusion";
             EmptyString;
             "    Create a publication-ready article that effectively communicates the topic's importance and implications.";
             "    " ]%string.

Definition step3 (language : pystr) : pystr :=
  [9997%N; 65039%N] ++ py " **Step 3: Writing comprehensive article in "
  ++ language ++ py "...**".

Definition generate_article (topic language : pystr) (research_report : value)
    (research_depth : depth) : M value :=
  emit (Ui st_write (VStr (step3 language))) ;;
  call_groq_api (article_prompt topic language research_report research_depth) 3500.

Definition improvement_prompt (article : value) (topic language : pystr)
  : pystr :=
  joinl [ EmptyString;
          "    You are a professional editor. Review and improve the following article about " ]%string
  ++ dq ++ topic ++ dq ++ py " in " ++ language
  ++ joinl [ ".";
             EmptyString;
             "    ARTICLE TO IMPROVE:";
             "    " ]%string
  ++ py_str rt article
  ++ joinl [ EmptyString;
             EmptyString;
             "    IMPROVEMENT TASKS:";
             "    1. Enhance readability and flow";
             "    2. Improve structure and organization";
             "    3. Add better transitions between sections";
             "    4. Ensure consistent tone and style";
             "    5. Fix any grammar or language issues";
             "    6. Make the content more engaging";
             "    7. Ensure all information is well-presented";
             "    8. Add section breaks and better formatting";
             EmptyString;
             "    Return the improved, polished version of the article that's ready for publication.";
             "    Maintain the same language (" ]%string
  ++ language
  ++ joinl [ ") and overall content while making it significantly better.";
             "    " ]%string.

Definition step4 : pystr :=
  [10024%N] ++ py " **Step 4: Polishing and improving the article...**".

Definition improve_article (article : value) (topic language : pystr)
  : M value :=
  emit (Ui st_write (VStr step4)) ;;
  call_groq_api (improvement_prompt article topic language) 4000.

(** ** The main execution block *)

Definition key_help : pystr :=
  joinl [ EmptyString;
          "        **Get your FREE Groq API key:**";
          "        1. Go to https://console.groq.com/";
          "        2. Sign up for free (no credit card needed)";
          "        3. Create API key";
          "        4. Add to .env file: `GROQ_API_KEY=your_key_here`";
          "        ";
          "        **Make sure your key starts with 'gsk_'**";
          "        " ]%string.

Definition connection_help : pystr :=
  joinl [ EmptyString;
          "        **Try these solutions:**";
          "        1. **Check API key**: Make sure it starts with 'gsk_' and is correct";
          "        2. **Try different model**: Change to 'llama-3.1-8b-instant'";
          "        3. **Check internet**: Ensure you have stable internet connection";
          "        4. **Wait and retry**: You might have hit rate limits";
          "        ";
          "        **Model alternatives to try:**";
          "        - llama-3.1-8b-instant (fastest)";
          "        - llama3-8b-8192 (alternative)";
          "        - mixtral-8x7b-32768 (if others fail)";
          "        " ]%string.

Definition cross : pystr := [10060%N].
Definition tick : pystr := [9989%N].

(** ["Error" in v]: the test the script applies to the result of every
    completion call. *)
Definition has_error (v : value) : exn + bool := py_in rt (py "Error") v.

(** Lines 296-338: the checks before the pipeline starts. *)
Definition preflight : M unit :=
  (if falsy (GROQ_API_KEY cfg) then
     emit (Ui st_error (VStr (cross ++ py " GROQ_API_KEY not found!"))) ;;
     emit (Ui st_markdown (VStr key_help)) ;;
     st_stop
   else ret tt) ;;
  (if negb (startswith (key_text (GROQ_API_KEY cfg)) (py "gsk_")) then
     emit (Ui st_error (VStr (cross ++ py " Invalid Groq API key format!"))) ;;
     emit (Ui st_info
             (VStr (py "Your Groq API key should start with 'gsk_'. Please check your .env file."))) ;;
     st_stop
   else ret tt) ;;
  emit (Ui st_info (VStr ([128295%N] ++ py " Testing Groq API connection..."))) ;;
  test_result <- call_groq_api (py "Say 'Connection test successful'") 20 ;;
  failed <- lift (has_error test_result) ;;
  (if failed : bool then
     emit (Ui st_error (VStr (cross ++ py " Groq API connection failed!"))) ;;
     emit (Ui st_code test_result) ;;
     emit (Ui st_markdown (VStr connection_help)) ;;
     st_stop
   else ret tt) ;;
  emit (Ui st_success (VStr (tick ++ py " Groq API connection successful!"))) ;;
  (if falsy (SERPER_API_KEY cfg) then
     emit (Ui st_warning
             (VStr ([9888%N; 65039%N]
                    ++ py " SERPER_API_KEY not found. Web search will be limited.")))
   else ret tt).

(** Lines 344-367: the body of the [try], down to the value of
    [final_article]. *)
Definition pipeline (topic language : pystr) (research_depth : depth)
  : M value :=
  data <- conduct_research topic ;;
  research_report <- generate_research_report topic data ;;
  failed <- lift (has_error research_report) ;;
  (if failed : bool then
     emit (Ui st_error (VStr (py "Research failed: " ++ py_str rt research_report))) ;;
     st_stop
   else ret tt) ;;
  article <- generate_article topic language research_report research_depth ;;
  failed <- lift (has_error article) ;;
  (if failed : bool then
     emit (Ui st_error
             (VStr (py "Article generation failed: " ++ py_str rt article))) ;;
     st_stop
   else ret tt) ;;
  match research_depth with
  | Detailed =>
      final_article <- improve_article article topic language ;;
      failed <- lift (has_error final_article) ;;
      if failed : bool then
        emit (Ui st_warning
                (VStr (py "Article improvement failed, using original version."))) ;;
        ret article
      else ret final_article
  | Basic => ret article
  end.

(** The handler of line 491. *)
Definition main_except (e : exn) : M (option value) :=
  emit (Ui st_error (VStr (cross ++ py " An error occurred: " ++ exn_str e))) ;;
  emit (Ui st_info (VStr (py "Please try again or check your API keys."))) ;;
  ret None.

(** The block run when the button is pressed.  Of the presentation code
    that follows the pipeline (lines 369-489: the timing banner, the list of
    sources, the downloads) the model keeps the display of the article,
    line 383; the spinner of line 340 and the clock readings are left out.
    A run ends with [Val (Some final_article)] when the pipeline
    is done, with [Val None] when the handler of line 491 has reported an
    exception, with [Stop] after [st.stop()], and with [Exc] when an
    exception leaves the script. *)
Definition main_block (topic language : pystr) (research_depth : depth)
  : M (option value) :=
  preflight ;;
  try_except
    (final_article <- pipeline topic language research_depth ;;
     emit (Ui st_markdown final_article) ;;
     ret (Some final_article))
    main_except.

(** ** Vocabulary of the properties *)

(** The key passes the two checks of lines 87-91 (and 296-312). *)
Definition key_accepted : bool :=
  negb (falsy (GROQ_API_KEY cfg))
  && startswith (key_text (GROQ_API_KEY cfg)) (py "gsk_").

(** What the four subscriptions of line 153 find in the body of a status
    200 response, when they find something. *)
Definition content_of (r : response) : option value :=
  if (status_code r =? 200)%Z then
    match
      result <~ json r ;;
      choices <~ py_getitem rt result (py "choices") ;;
      choice <~ py_getitem0 rt choices ;;
      message <~ py_getitem rt choice (py "message") ;;
      py_getitem rt message (py "content")
    with
    | inr v => Some v
    | inl _ => None
    end
  else None.

(** The completion call failed: the transport raised, or the response is
    not a status 200 response with a content. *)
Definition failed_call (o : exn + response) : bool :=
  match o with
  | inl _ => true
  | inr r =>
      match content_of r with
      | Some _ => false
      | None => true
      end
  end.

(** What [call_groq_api] returns for an outcome of the transport. *)
Definition reply (o : exn + response) : value :=
  match o with
  | inl e => groq_except e
  | inr r =>
      match read_response r with
      | inl e => groq_except e
      | inr v => v
      end
  end.

End Script.

(** The failure strings of [call_groq_api] all start with ["Error"]. *)
Definition error_text (v : value) : bool :=
  match v with
  | VStr s => startswith s (py "Error")
  | _ => false
  end.

(** A call that leaves the process. *)
Definition network_call (e : event) : bool :=
  match e with
  | Ui _ _ | Sleep _ => false
  | SerperPost _ | WikipediaSummary _ | WikipediaPage _ | GroqPost _ => true
  end.

(** The request of the connection test (line 316). *)
Definition test_request (cfg : config) : groq_request :=
  groq_data cfg (py "Say 'Connection test successful'") 20.

(** The requests sent to the completion service, in order. *)
Fixpoint completions (t : trace) : list groq_request :=
  match t with
  | [] => []
  | GroqPost r :: rest => r :: completions rest
  | _ :: rest => completions rest
  end.

(** [improve_article] announces itself with the step 4 message, and nothing
    else writes it. *)
Definition polish_start (e : event) : bool :=
  match e with
  | Ui st_write (VStr s) => str_eqb s step4
  | _ => false
  end.

(** [appends P m]: whatever [m] does, it only adds events to the trace, and
    each of them satisfies [P]. *)
Definition appends {A} (P : event -> bool) (m : M A) : Prop :=
  forall t, exists es, fst (m t) = t ++ es /\ forallb P es = true.

(** The events that are not requests to the completion service. *)
Definition not_completion (e : event) : bool :=
  match e with
  | GroqPost _ => false
  | _ => true
  end.

(** The events that do not start the polish stage. *)
Definition not_polish (e : event) : bool := negb (polish_start e).

(** The events of the gatherer: neither a completion request nor the start
    of the polish stage. *)
Definition quiet (e : event) : bool := not_completion e && not_polish e.

(** ** The downloads and the sidebar test *)

(** [s.replace(old, new)], for one character replaced by one character. *)
Definition replace_char (old new : N) (s : pystr) : pystr :=
  map (fun c => if (c =? old)%N then new else c) s.

(** Line 410: [topic.replace(' ', '_').replace('/', '_')]. *)
Definition filename_base (topic : pystr) : pystr :=
  replace_char 47 95 (replace_char 32 95 topic).

Section Presentation.

Variable cfg : config.
Variable w : world.

Local Abbreviation rt := (python w).





(** Lines 543-552, the block run when the sidebar's test button is
    pressed.  The block ends with one call of the sidebar, [st_success] for
    [st.sidebar.success] and [st_error] for [st.sidebar.error]; the model
    returns that call and its text. *)
Definition test_connection : M (st * pystr) :=
  if negb (falsy (GROQ_API_KEY cfg)) then
    test_result <- call_groq_api cfg w (py "Say 'Hello! API working!'") 20 ;;
    working <- lift (py_in rt (py "working") test_result) ;;
    greeted <- (if working : bool then ret true
                else lift (py_in rt (py "Hello") test_result)) ;;
    if greeted : bool then
      ret (st_success, tick ++ py " Groq API working!")
    else
      ret (st_error,
           cross ++ py " Groq API issue: Try switching to: llama-3.1-8b-instant")
  else
    ret (st_error, cross ++ py " No Groq API key found").

End Presentation.

(** ** More vocabulary *)

(** The two exception classes [wikipedia_search] handles. *)
Definition handled (e : exn) : bool :=
  match cls e with
  | DisambiguationError _ | PageError => true
  | _ => false
  end.

(** The hit [web_search] makes of one entry of the [organic] list. *)
Definition hit_of (entry : list (pystr * value)) : search_hit :=
  let field k := match lookup (py k) entry with
                 | Some v => v
                 | None => VStr []
                 end in
  {| title := field "title"%string;
     snippet := field "snippet"%string;
     link := field "link"%string |}.

Definition is_search (e : event) : bool :=
  match e with
  | SerperPost _ => true
  | _ => false
  end.

Definition is_encyclopedia (e : event) : bool :=
  match e with
  | WikipediaSummary _ | WikipediaPage _ => true
  | _ => false
  end.

Definition is_completion (e : event) : bool := negb (not_completion e).


(** How many events of [es] satisfy [P]. *)
Definition count (P : event -> bool) (es : trace) : nat :=
  List.length (filter P es).

(** [costs P n m]: whatever [m] does, it adds at most [n] events that
    satisfy [P]. *)
Definition costs {A} (P : event -> bool) (n : nat) (m : M A) : Prop :=
  forall t, exists es, fst (m t) = t ++ es /\ count P es <= n.

(** The completion calls of the stages of a run of the given depth. *)
Definition stage_calls (d : depth) : nat :=
  match d with
  | Basic => 2
  | Detailed => 3
  end.

(** The limits every request to the completion service respects. *)
Definition request_ok (cfg : config) (r : groq_request) : bool :=
  (len (content r) <=? 15035)%Z
  && (max_tokens r <=? 4000)%Z
  && str_eqb (model r) (model_choice cfg)
  && str_eqb (authorization r) (py "Bearer " ++ key_text (GROQ_API_KEY cfg)).

Definition event_ok (cfg : config) (e : event) : bool :=
  match e with
  | GroqPost r => request_ok cfg r
  | _ => true
  end.

(** ** Scenarios

    Canned services, for runs that can be computed. *)

Definition plain_runtime : runtime :=
  {| repr := fun _ => py "<repr>";
     fault_text := fun _ _ _ => py "<fault>" |}.

Definition demo_cfg : config :=
  {| SERPER_API_KEY := Some (py "serper-demo");
     GROQ_API_KEY := Some (py "gsk_demo");
     model_choice := py "llama-3.1-8b-instant" |}.

Definition no_key_cfg : config :=
  {| SERPER_API_KEY := Some (py "serper-demo");
     GROQ_API_KEY := None;
     model_choice := py "llama-3.1-8b-instant" |}.

Definition bad_key_cfg : config :=
  {| SERPER_API_KEY := Some (py "serper-demo");
     GROQ_API_KEY := Some (py "sk-demo");
     model_choice := py "llama-3.1-8b-instant" |}.

(** A well-formed completion carrying [c] as its content. *)
Definition ok_response (c : value) : response :=
  {| status_code := 200;
     text := py "{...}";
     json := inr (VDict [(py "choices",
                          VList [VDict [(py "message",
                                         VDict [(py "content", c)])]])]) |}.

(** A status 400 response with a structured error body. *)
Definition error_400 (message : pystr) : response :=
  {| status_code := 400;
     text := py "{...}";
     json := inr (VDict [(py "error",
                          VDict [(py "message", VStr message);
                                 (py "type", VStr (py "invalid_request_error"))])]) |}.

Definition status_only (code : Z) : response :=
  {| status_code := code;
     text := py "denied";
     json := inl {| cls := JSONDecodeError; exn_str := py "Expecting value" |} |}.

Definition timed_out : exn := {| cls := Timeout; exn_str := py "read timed out" |}.

Definition offline : exn :=
  {| cls := ConnectionError; exn_str := py "Max retries exceeded" |}.

Definition three_hits : response :=
  let hit n :=
    VDict [(py "title", VStr (py "Title " ++ [n]));
           (py "snippet", VStr (py "Snippet " ++ [n]));
           (py "link", VStr (py "https://example.org/" ++ [n]))] in
  {| status_code := 200;
     text := py "{...}";
     json := inr (VDict [(py "organic", VList [hit 49%N; hit 50%N; hit 51%N])]) |}.

(** The completion service answers its n-th call with the n-th entry of
    [replies]; search finds three hits per query and the encyclopedia
    finds the page. *)
Definition scripted (replies : list (exn + response)) : world :=
  {| serper := fun _ _ => inr three_hits;
     wikipedia_summary := fun _ _ => inr (py "A summary.");
     wikipedia_page_of := fun _ topic =>
       inr {| page_url := py "https://en.wikipedia.org/wiki/X";
              page_title := topic |};
     groq := fun t _ => nth (List.length (completions t)) replies (inl timed_out);
     python := plain_runtime |}.

(** The same, with the encyclopedia unreachable. *)
Definition wikipedia_down (replies : list (exn + response)) : world :=
  {| serper := serper (scripted replies);
     wikipedia_summary := fun _ _ => inl offline;
     wikipedia_page_of := fun _ _ => inl offline;
     groq := groq (scripted replies);
     python := plain_runtime |}.

(** A rate-limit message of the service that also names the model. *)
Definition rate_limit_message : pystr :=
  py "Rate limit reached for model llama-3.1-8b-instant".

(** A rate-limit message of the service that counts tokens. *)
Definition rate_and_token_message : pystr :=
  py "Rate limit reached on tokens per minute (TPM): Limit 6000".

(** More than 15000 characters. *)
Definition long_prompt : pystr := repeat 120%N (Z.to_nat 15001).

Definition ok_text (s : string) : exn + response :=
  inr (ok_response (VStr (py s))).

Definition test_passes : exn + response := ok_text "Connection test successful".

(** The report call is refused. *)
Definition report_fails : world :=
  scripted [test_passes; inr (status_only 401)].

(** The article call times out. *)
Definition article_fails : world :=
  scripted [test_passes; ok_text "A report."; inl timed_out].

(** The polish call cannot connect. *)
Definition polish_fails : world :=
  scripted [test_passes; ok_text "A report."; ok_text "An article."; inl offline].

(** Every call succeeds. *)
Definition all_succeed : world :=
  scripted [test_passes; ok_text "A report."; ok_text "An article.";
            ok_text "A polished article."].

(** The article call succeeds with an empty text. *)
Definition empty_article : world :=
  scripted [test_passes; ok_text "A report."; inr (ok_response (VStr []))].

(** The report call succeeds, and the report speaks of errors. *)
Definition report_about_errors : world :=
  scripted [test_passes; ok_text "Error bars are wide in every study."].

Definition demo_topic : pystr := py "AI in Healthcare".
Definition english : pystr := py "English".

(** The encyclopedia knows several pages for the topic. *)
Definition ambiguous : exn :=
  {| cls := DisambiguationError
              [py "Mercury (planet)"; py "Mercury (element)"; py "Mercury (god)";
               py "Mercury Records"; py "Mercury (programming language)";
               py "Project Mercury"];
     exn_str := py "may refer to" |}.

Definition wikipedia_ambiguous (replies : list (exn + response)) : world :=
  {| serper := serper (scripted replies);
     wikipedia_summary := fun _ _ => inl ambiguous;
     wikipedia_page_of := fun _ _ => inl ambiguous;
     groq := groq (scripted replies);
     python := plain_runtime |}.

(** The search service refuses every request with status 429, whatever its
    body says. *)
Definition search_refused : world :=
  {| serper := fun _ _ =>
       inr {| status_code := 429; text := text three_hits; json := json three_hits |};
     wikipedia_summary := wikipedia_summary (scripted []);
     wikipedia_page_of := wikipedia_page_of (scripted []);
     groq := groq (scripted []);
     python := plain_runtime |}.

(** The connection test is answered with a null content. *)
Definition null_test : world := scripted [inr (ok_response VNone)].

(** The three entries of [three_hits]. *)
Definition three_entries : list (list (pystr * value)) :=
  let hit n :=
    [(py "title", VStr (py "Title " ++ [n]));
     (py "snippet", VStr (py "Snippet " ++ [n]));
     (py "link", VStr (py "https://example.org/" ++ [n]))] in
  [hit 49%N; hit 50%N; hit 51%N].

(** * Properties *)

(** ** Strings *)

Lemma str_eqb_refl (s : pystr) : str_eqb s s = true.
Proof.
  induction s as [| c s IH]; simpl; [reflexivity |].
  rewrite N.eqb_refl. exact IH.
Qed.

Lemma startswith_app (p s : pystr) : startswith (p ++ s) p = true.
Proof.
  induction p as [| c p IH]; simpl; [reflexivity |].
  rewrite N.eqb_refl. exact IH.
Qed.


Lemma startswith_in (p s : pystr) : startswith s p = true -> str_in p s = true.
Proof.
  intros H. destruct s; simpl in *; rewrite H; reflexivity.
Qed.

Lemma str_in_app_l (k a b : pystr) : str_in k b = true -> str_in k (a ++ b) = true.
Proof.
  intros H. induction a as [| c a IH]; simpl; [exact H |].
  rewrite IH. apply orb_true_r.
Qed.

Section ClientFacts.

Variable cfg : config.
Variable w : world.

Local Abbreviation rt := (python w).

Lemma error_text_in (v : value) :
  error_text v = true -> has_error w v = inr true.
Proof.
  destruct v; simpl; try discriminate.
  intros H. unfold has_error. simpl. f_equal. apply startswith_in. exact H.
Qed.

Lemma groq_except_error (e : exn) : error_text (groq_except e) = true.
Proof.
  unfold groq_except.
  destruct (is_Timeout e); [reflexivity |].
  destruct (is_ConnectionError e); [reflexivity |].
  destruct (is_RequestException e); [reflexivity |].
  destruct (is_JSONDecodeError e); [reflexivity |].
  destruct (is_KeyError e); reflexivity.
Qed.

Ltac split_match :=
  match goal with
  | H : context [match ?x with _ => _ end] |- _ => destruct x eqn:?
  | H : context [if ?x then _ else _] |- _ => destruct x eqn:?
  end.

Lemma bad_request_error (r : response) (v : value) :
  bad_request cfg w r = inr v -> error_text v = true.
Proof.
  unfold bad_request, bindE. intros H.
  repeat split_match; try discriminate;
    repeat match goal with
           | E : inr _ = inr _ |- _ => injection E as E; try subst
           end;
    reflexivity.
Qed.

Lemma read_response_shape (r : response) (v : value) :
  read_response cfg w r = inr v ->
  error_text v = true \/ content_of w r = Some v.
Proof.
  unfold read_response, content_of. intros H.
  destruct (status_code r =? 400)%Z eqn:E400.
  { left. eapply bad_request_error. exact H. }
  destruct (status_code r =? 401)%Z; [injection H as <-; left; reflexivity |].
  destruct (status_code r =? 429)%Z; [injection H as <-; left; reflexivity |].
  destruct (status_code r =? 200)%Z eqn:E200; cbn [negb] in H;
    [| injection H as <-; left; reflexivity].
  unfold bindE in *.
  destruct (json r) as [e | result] eqn:Ej; [discriminate |].
  destruct (no_choices w result) as [e | missing]; [discriminate |].
  destruct missing; [injection H as <-; left; reflexivity |].
  destruct (py_getitem rt result (py "choices")) as [e | choices];
    [discriminate |].
  destruct (py_getitem0 rt choices) as [e | choice]; [discriminate |].
  destruct (py_getitem rt choice (py "message")) as [e | message];
    [discriminate |].
  right. rewrite H. reflexivity.
Qed.

Lemma call_groq_api_accepted (prompt : pystr) (mt : Z) (t : trace) :
  key_accepted cfg = true ->
  call_groq_api cfg w prompt mt t
  = (t ++ [GroqPost (groq_data cfg prompt mt)],
     Val (reply cfg w (groq w t (groq_data cfg prompt mt)))).
Proof.
  unfold key_accepted, call_groq_api. intros H.
  apply andb_true_iff in H. destruct H as [H1 H2].
  apply negb_true_iff in H1. rewrite H1, H2. simpl.
  unfold try_except, bind, post_groq, lift, reply.
  destruct (groq w t (groq_data cfg prompt mt)) as [e | r]; [reflexivity |].
  destruct (read_response cfg w r); reflexivity.
Qed.


Lemma reply_shape (o : exn + response) :
  error_text (reply cfg w o) = true
  \/ exists r, o = inr r /\ content_of w r = Some (reply cfg w o).
Proof.
  unfold reply. destruct o as [e | r].
  - left. apply groq_except_error.
  - destruct (read_response cfg w r) as [e | v] eqn:E.
    + left. apply groq_except_error.
    + destruct (read_response_shape r v E) as [H | H]; [left; exact H |].
      right. exists r. split; [reflexivity | exact H].
Qed.

(** A failed call is answered by one of the failure strings. *)
Lemma failed_call_reply (o : exn + response) :
  failed_call w o = true ->
  exists msg, reply cfg w o = VStr msg /\ startswith msg (py "Error") = true.
Proof.
  intros Hf.
  assert (He : error_text (reply cfg w o) = true).
  { destruct (reply_shape o) as [H | (r & -> & H)]; [exact H |].
    simpl in Hf. rewrite H in Hf. discriminate. }
  destruct (reply cfg w o) as [| | | msg | |]; try discriminate.
  exists msg. split; [reflexivity | exact He].
Qed.

End ClientFacts.

(** ** Footprints *)

Section Footprints.

Context {A B : Type} (P : event -> bool).

Lemma appends_ret (a : A) : appends P (ret a).
Proof. intros t. exists []. rewrite app_nil_r. split; reflexivity. Qed.

Lemma appends_raise (e : exn) : appends P (@raise A e).
Proof. intros t. exists []. rewrite app_nil_r. split; reflexivity. Qed.

Lemma appends_stop : appends P (@st_stop A).
Proof. intros t. exists []. rewrite app_nil_r. split; reflexivity. Qed.

Lemma appends_lift (r : exn + A) : appends P (lift r).
Proof. destruct r; [apply appends_raise | apply appends_ret]. Qed.

Lemma appends_emit (ev : event) : P ev = true -> appends P (emit ev).
Proof.
  intros H t. exists [ev]. split; [reflexivity |].
  simpl. rewrite H. reflexivity.
Qed.

Lemma appends_bind (m : M A) (f : A -> M B) :
  appends P m -> (forall a, appends P (f a)) -> appends P (bind m f).
Proof.
  intros Hm Hf t. unfold bind.
  destruct (Hm t) as (es & Ht & Hes).
  destruct (m t) as [t' r]. simpl in Ht. subst t'.
  destruct r as [a | e |].
  - destruct (Hf a (t ++ es)) as (es' & Ht' & Hes').
    exists (es ++ es'). rewrite Ht', app_assoc, forallb_app, Hes, Hes'.
    split; reflexivity.
  - exists es. split; [reflexivity | exact Hes].
  - exists es. split; [reflexivity | exact Hes].
Qed.

Lemma appends_try (m : M A) (h : exn -> M A) :
  appends P m -> (forall e, appends P (h e)) -> appends P (try_except m h).
Proof.
  intros Hm Hh t. unfold try_except.
  destruct (Hm t) as (es & Ht & Hes).
  destruct (m t) as [t' r]. simpl in Ht. subst t'.
  destruct r as [a | e |].
  - exists es. split; [reflexivity | exact Hes].
  - destruct (Hh e (t ++ es)) as (es' & Ht' & Hes').
    exists (es ++ es'). rewrite Ht', app_assoc, forallb_app, Hes, Hes'.
    split; reflexivity.
  - exists es. split; [reflexivity | exact Hes].
Qed.

End Footprints.

Lemma completions_app (a b : trace) :
  completions (a ++ b) = completions a ++ completions b.
Proof.
  induction a as [| e a IH]; [reflexivity |].
  destruct e; simpl; rewrite IH; reflexivity.
Qed.

Lemma completions_none (es : trace) :
  forallb not_completion es = true -> completions es = [].
Proof.
  induction es as [| e es IH]; [reflexivity |].
  simpl. intros H. apply andb_true_iff in H. destruct H as [H1 H2].
  destruct e; try discriminate; apply IH; exact H2.
Qed.

Lemma polish_none (es : trace) :
  forallb not_polish es = true -> existsb polish_start es = false.
Proof.
  induction es as [| e es IH]; [reflexivity |].
  simpl. intros H. apply andb_true_iff in H. destruct H as [H1 H2].
  unfold not_polish in H1. apply negb_true_iff in H1.
  rewrite H1, (IH H2). reflexivity.
Qed.

Lemma appends_weaken {A} (P Q : event -> bool) (m : M A) :
  (forall e, P e = true -> Q e = true) -> appends P m -> appends Q m.
Proof.
  intros HPQ Hm t. destruct (Hm t) as (es & Ht & Hes).
  exists es. split; [exact Ht |].
  rewrite forallb_forall in *. auto.
Qed.

Section GathererFootprint.

Variable cfg : config.
Variable w : world.

Lemma web_search_quiet (query : pystr) (n : Z) :
  appends quiet (web_search cfg w query n).
Proof.
  unfold web_search. destruct (falsy (SERPER_API_KEY cfg)); [apply appends_ret |].
  apply appends_try.
  - apply appends_bind.
    + intros t. eexists [_]. unfold post_serper. simpl. split; reflexivity.
    + intros r. apply appends_bind; [apply appends_lift |].
      intros _. apply appends_lift.
  - intros e. apply appends_bind; [apply appends_emit; reflexivity |].
    intros _. apply appends_ret.
Qed.

Lemma search_all_quiet (queries : list pystr) (acc : list search_hit) :
  appends quiet (search_all cfg w queries acc).
Proof.
  revert acc. induction queries as [| query rest IH]; intros acc; simpl.
  - apply appends_ret.
  - apply appends_bind; [apply web_search_quiet |].
    intros results. apply appends_bind; [apply appends_emit; reflexivity |].
    intros _. apply IH.
Qed.

Lemma wikipedia_search_quiet (topic : pystr) :
  appends quiet (wikipedia_search w topic).
Proof.
  unfold wikipedia_search. apply appends_try.
  - apply appends_bind.
    + intros t. eexists [_]. unfold get_summary. simpl. split; reflexivity.
    + intros s. apply appends_bind; [| intros page; apply appends_ret].
      intros t. eexists [_]. unfold get_page. simpl. split; reflexivity.
  - intros e. unfold wikipedia_except.
    destruct (cls e); first [apply appends_ret | apply appends_raise].
Qed.

Lemma conduct_research_quiet (topic : pystr) :
  appends quiet (conduct_research cfg w topic).
Proof.
  unfold conduct_research.
  apply appends_bind; [apply appends_emit; reflexivity |]. intros _.
  apply appends_bind; [apply search_all_quiet |]. intros hits.
  apply appends_bind; [apply wikipedia_search_quiet |]. intros wiki.
  apply appends_bind; [apply appends_emit; reflexivity |]. intros _.
  apply appends_ret.
Qed.

(** The gatherer sends nothing to the completion service. *)
Lemma conduct_research_completions (topic : pystr) (t t' : trace)
    (r : res research_data) :
  conduct_research cfg w topic t = (t', r) -> completions t' = completions t.
Proof.
  intros H. destruct (conduct_research_quiet topic t) as (es & Ht & Hes).
  rewrite H in Ht. simpl in Ht. subst t'.
  rewrite completions_app, (completions_none es), app_nil_r; [reflexivity |].
  rewrite forallb_forall in *. intros e He.
  specialize (Hes e He). unfold quiet in Hes.
  apply andb_true_iff in Hes. tauto.
Qed.

End GathererFootprint.

(** ** Running a sequence *)

Section Sequencing.

Context {A B : Type}.

Lemma bind_val (m : M A) (f : A -> M B) (t t' : trace) (a : A) :
  m t = (t', Val a) -> bind m f t = f a t'.
Proof. intros H. unfold bind. rewrite H. reflexivity. Qed.

Lemma bind_exc (m : M A) (f : A -> M B) (t t' : trace) (e : exn) :
  m t = (t', Exc e) -> bind m f t = (t', Exc e).
Proof. intros H. unfold bind. rewrite H. reflexivity. Qed.

Lemma bind_stop (m : M A) (f : A -> M B) (t t' : trace) :
  m t = (t', Stop) -> bind m f t = (t', Stop).
Proof. intros H. unfold bind. rewrite H. reflexivity. Qed.

Lemma try_val (m : M A) (h : exn -> M A) (t t' : trace) (a : A) :
  m t = (t', Val a) -> try_except m h t = (t', Val a).
Proof. intros H. unfold try_except. rewrite H. reflexivity. Qed.

Lemma try_exc (m : M A) (h : exn -> M A) (t t' : trace) (e : exn) :
  m t = (t', Exc e) -> try_except m h t = h e t'.
Proof. intros H. unfold try_except. rewrite H. reflexivity. Qed.

Lemma try_stop (m : M A) (h : exn -> M A) (t t' : trace) :
  m t = (t', Stop) -> try_except m h t = (t', Stop).
Proof. intros H. unfold try_except. rewrite H. reflexivity. Qed.

(** What a sequence returns comes from its first part failing or from its
    second part. *)
Lemma bind_inv (m : M A) (f : A -> M B) (t t' : trace) (b : B) :
  bind m f t = (t', Val b) ->
  exists t1 a, m t = (t1, Val a) /\ f a t1 = (t', Val b).
Proof.
  unfold bind. destruct (m t) as [t1 [a | e |]]; intros H;
    try discriminate. exists t1, a. split; [reflexivity | exact H].
Qed.

End Sequencing.

Lemma lift_inv {A} (r : exn + A) (t t' : trace) (a : A) :
  lift r t = (t', Val a) -> r = inr a /\ t' = t.
Proof.
  destruct r as [e | a']; simpl; intros H; [discriminate |].
  injection H as <- <-. split; reflexivity.
Qed.

(** ** The completion client *)

Lemma content_read (cfg : config) (w : world) (r : response) (v : value) :
  content_of w r = Some v -> read_response cfg w r = inr v.
Proof.
  unfold content_of, read_response.
  destruct (status_code r =? 200)%Z eqn:Hs; [| discriminate].
  apply Z.eqb_eq in Hs. rewrite Hs.
  change (200 =? 400)%Z with false. change (200 =? 401)%Z with false.
  change (200 =? 429)%Z with false. change (200 =? 200)%Z with true.
  cbn [negb]. unfold bindE.
  destruct (json r) as [e | result]; [discriminate |].
  destruct (py_getitem (python w) result (py "choices")) as [e | choices] eqn:H1;
    [discriminate |].
  destruct (py_getitem0 (python w) choices) as [e | choice] eqn:H2;
    [discriminate |].
  destruct (py_getitem (python w) choice (py "message")) as [e | message];
    [discriminate |].
  intros H.
  assert (Hn : no_choices w result = inr false).
  { unfold no_choices, bindE.
    destruct result; try discriminate.
    unfold py_getitem in H1. unfold py_in.
    destruct (lookup (py "choices") d) as [x |] eqn:El; [| discriminate].
    injection H1 as ->. cbn [negb]. unfold py_getitem. rewrite El.
    destruct choices as [| | | [| c s] | [| x l] | d']; try discriminate;
      reflexivity. }
  rewrite Hn.
  destruct (py_getitem (python w) message (py "content")); congruence.
Qed.

(** C1, as amended: for a status 400 response with a structured error
    message, the three tests are made in the order "model", "token", "rate"
    on the lower-cased message.  A message that contains "rate" and neither
    "model" nor "token" gets the rate-limit advisory, "Error: Rate limit
    exceeded. " followed by the message; a message that contains "model"
    gets the model advisory, and one that contains "token" and not "model"
    gets the token advisory, "Error: Token limit issue. " followed by the
    message, whether or not "rate" occurs in them. *)
Theorem C1_rate_limit_advisory (cfg : config) (w : world) (prompt : pystr)
    (mt : Z) (t : trace) (r : response) (info err : list (pystr * value))
    (msg : pystr) :
  key_accepted cfg = true ->
  groq w t (groq_data cfg prompt mt) = inr r ->
  status_code r = 400%Z ->
  json r = inr (VDict info) ->
  lookup (py "error") info = Some (VDict err) ->
  lookup (py "message") err = Some (VStr msg) ->
  (str_in (py "rate") (lower msg) = true ->
   str_in (py "model") (lower msg) = false ->
   str_in (py "token") (lower msg) = false ->
   call_groq_api cfg w prompt mt t
   = (t ++ [GroqPost (groq_data cfg prompt mt)],
      Val (VStr (py "Error: Rate limit exceeded. " ++ msg))))
  /\ (str_in (py "model") (lower msg) = true ->
      call_groq_api cfg w prompt mt t
      = (t ++ [GroqPost (groq_data cfg prompt mt)],
         Val (VStr (py "Error: Model '" ++ model_choice cfg
                    ++ py "' not available. Try: llama-3.1-8b-instant"))))
  /\ (str_in (py "model") (lower msg) = false ->
      str_in (py "token") (lower msg) = true ->
      call_groq_api cfg w prompt mt t
      = (t ++ [GroqPost (groq_data cfg prompt mt)],
         Val (VStr (py "Error: Token limit issue. " ++ msg)))).
Proof.
  intros Hk Hg Hs Hj He Hm.
  rewrite (call_groq_api_accepted cfg w prompt mt t Hk). rewrite Hg.
  unfold reply, read_response. rewrite Hs.
  change (400 =? 400)%Z with true. cbv iota.
  unfold bad_request, bindE. rewrite Hj.
  unfold py_get. rewrite He, Hm.
  unfold py_lower.
  split; [| split].
  - intros Hrate Hmodel Htoken. rewrite Hmodel, Htoken, Hrate. reflexivity.
  - intros Hmodel. rewrite Hmodel. reflexivity.
  - intros Hmodel Htoken. rewrite Hmodel, Htoken. reflexivity.
Qed.

Lemma C1_rate_limit_advisory_witness :
  call_groq_api demo_cfg (scripted [inr (error_400 (py "Rate limit reached"))])
    (py "hi") 20 []
  = ([GroqPost (groq_data demo_cfg (py "hi") 20)],
     Val (VStr (py "Error: Rate limit exceeded. Rate limit reached")))
  /\ call_groq_api demo_cfg (scripted [inr (error_400 rate_limit_message)])
       (py "hi") 20 []
     = ([GroqPost (groq_data demo_cfg (py "hi") 20)],
        Val (VStr (py "Error: Model 'llama-3.1-8b-instant' not available. Try: llama-3.1-8b-instant")))
  /\ call_groq_api demo_cfg (scripted [inr (error_400 rate_and_token_message)])
       (py "hi") 20 []
     = ([GroqPost (groq_data demo_cfg (py "hi") 20)],
        Val (VStr (py "Error: Token limit issue. " ++ rate_and_token_message))).
Proof.
  split; [| split].
  - apply (C1_rate_limit_advisory demo_cfg
             (scripted [inr (error_400 (py "Rate limit reached"))])
             (py "hi") 20 []
             (error_400 (py "Rate limit reached"))
             [(py "error",
               VDict [(py "message", VStr (py "Rate limit reached"));
                      (py "type", VStr (py "invalid_request_error"))])]
             [(py "message", VStr (py "Rate limit reached"));
              (py "type", VStr (py "invalid_request_error"))]
             (py "Rate limit reached")); reflexivity.
  - apply (C1_rate_limit_advisory demo_cfg
             (scripted [inr (error_400 rate_limit_message)])
             (py "hi") 20 []
             (error_400 rate_limit_message)
             [(py "error",
               VDict [(py "message", VStr rate_limit_message);
                      (py "type", VStr (py "invalid_request_error"))])]
             [(py "message", VStr rate_limit_message);
              (py "type", VStr (py "invalid_request_error"))]
             rate_limit_message); reflexivity.
  - apply (C1_rate_limit_advisory demo_cfg
             (scripted [inr (error_400 rate_and_token_message)])
             (py "hi") 20 []
             (error_400 rate_and_token_message)
             [(py "error",
               VDict [(py "message", VStr rate_and_token_message);
                      (py "type", VStr (py "invalid_request_error"))])]
             [(py "message", VStr rate_and_token_message);
              (py "type", VStr (py "invalid_request_error"))]
             rate_and_token_message); reflexivity.
Defined.

(** C1, as stated, fails: the message of a rate-limit error that names the
    model contains "rate", and the answer is the model advisory. *)
Lemma C1_counterexample :
  str_in (py "rate") (lower rate_limit_message) = true
  /\ snd (call_groq_api demo_cfg (scripted [inr (error_400 rate_limit_message)])
            (py "hi") 20 [])
     = Val (VStr (py "Error: Model 'llama-3.1-8b-instant' not available. Try: llama-3.1-8b-instant")).
Proof. split; reflexivity. Qed.

(** C5: a prompt of more than 15000 characters is sent as its first 15000
    characters followed by the marker, two newlines and the text "[Content
    truncated due to length]", 15035 characters in all; a prompt of at most
    15000 characters is sent as it is. *)
Theorem C5_prompt_truncation (cfg : config) (w : world) (prompt : pystr)
    (mt : Z) (t : trace) :
  key_accepted cfg = true ->
  call_groq_api cfg w prompt mt t
  = (t ++ [GroqPost (groq_data cfg prompt mt)],
     Val (reply cfg w (groq w t (groq_data cfg prompt mt))))
  /\ ((15000 < len prompt)%Z ->
      content (groq_data cfg prompt mt)
      = firstn (Z.to_nat 15000) prompt
        ++ nl ++ nl ++ py "[Content truncated due to length]"
      /\ len (firstn (Z.to_nat 15000) prompt) = 15000%Z
      /\ len (content (groq_data cfg prompt mt)) = 15035%Z)
  /\ ((len prompt <= 15000)%Z -> content (groq_data cfg prompt mt) = prompt).
Proof.
  intros Hk. split; [apply call_groq_api_accepted; exact Hk |].
  unfold groq_data, sent_prompt, len. cbn [content]. split; intros H.
  - apply Z.ltb_lt in H. unfold len in H. rewrite H.
    apply Z.ltb_lt in H. split; [reflexivity | split].
    + rewrite length_firstn. lia.
    + rewrite length_app, length_firstn.
      change (List.length truncation_marker) with 35. lia.
  - destruct (15000 <? Z.of_nat (List.length prompt))%Z eqn:E;
      [apply Z.ltb_lt in E; lia | reflexivity].
Qed.

Lemma C5_prompt_truncation_witness :
  content (groq_data demo_cfg long_prompt 20)
  = firstn (Z.to_nat 15000) long_prompt
    ++ nl ++ nl ++ py "[Content truncated due to length]"
  /\ content (groq_data demo_cfg (py "hi") 20) = py "hi".
Proof.
  split.
  - apply (C5_prompt_truncation demo_cfg (scripted []) long_prompt 20 []);
      vm_compute; reflexivity.
  - apply (C5_prompt_truncation demo_cfg (scripted []) (py "hi") 20 []);
      vm_compute; [reflexivity | discriminate].
Defined.

(** C6: a requested [max_tokens] above 4000 is sent as 4000; a requested
    value of at most 4000 is sent as it is. *)
Theorem C6_max_tokens_clamped (cfg : config) (w : world) (prompt : pystr)
    (mt : Z) (t : trace) :
  key_accepted cfg = true ->
  call_groq_api cfg w prompt mt t
  = (t ++ [GroqPost (groq_data cfg prompt mt)],
     Val (reply cfg w (groq w t (groq_data cfg prompt mt))))
  /\ ((4000 < mt)%Z -> max_tokens (groq_data cfg prompt mt) = 4000%Z)
  /\ ((mt <= 4000)%Z -> max_tokens (groq_data cfg prompt mt) = mt).
Proof.
  intros Hk. split; [apply call_groq_api_accepted; exact Hk |].
  unfold groq_data. cbn [max_tokens]. split; intros H; lia.
Qed.

Lemma C6_max_tokens_clamped_witness :
  max_tokens (groq_data demo_cfg (py "hi") 9000) = 4000%Z
  /\ max_tokens (groq_data demo_cfg (py "hi") 2500) = 2500%Z.
Proof.
  split.
  - apply (C6_max_tokens_clamped demo_cfg (scripted []) (py "hi") 9000 []);
      [reflexivity | lia].
  - apply (C6_max_tokens_clamped demo_cfg (scripted []) (py "hi") 2500 []);
      [reflexivity | lia].
Defined.



(** ** The stages and the checks before them *)

Section RunFacts.

Variable cfg : config.
Variable w : world.

Hypothesis accepted : key_accepted cfg = true.

Lemma generate_research_report_run (topic : pystr) (data : research_data)
    (t : trace) :
  generate_research_report cfg w topic data t
  = (t ++ [Ui st_write (VStr step2);
           GroqPost (groq_data cfg (research_prompt w topic data) 2500)],
     Val (reply cfg w (groq w (t ++ [Ui st_write (VStr step2)])
                         (groq_data cfg (research_prompt w topic data) 2500)))).
Proof.
  unfold generate_research_report, bind, emit.
  rewrite (call_groq_api_accepted cfg w _ _ _ accepted), <- app_assoc.
  reflexivity.
Qed.

Lemma generate_article_run (topic language : pystr) (report : value)
    (d : depth) (t : trace) :
  generate_article cfg w topic language report d t
  = (t ++ [Ui st_write (VStr (step3 language));
           GroqPost (groq_data cfg (article_prompt w topic language report d) 3500)],
     Val (reply cfg w (groq w (t ++ [Ui st_write (VStr (step3 language))])
                         (groq_data cfg (article_prompt w topic language report d) 3500)))).
Proof.
  unfold generate_article, bind, emit.
  rewrite (call_groq_api_accepted cfg w _ _ _ accepted), <- app_assoc.
  reflexivity.
Qed.

Lemma improve_article_run (article : value) (topic language : pystr)
    (t : trace) :
  improve_article cfg w article topic language t
  = (t ++ [Ui st_write (VStr step4);
           GroqPost (groq_data cfg (improvement_prompt w article topic language) 4000)],
     Val (reply cfg w (groq w (t ++ [Ui st_write (VStr step4)])
                         (groq_data cfg (improvement_prompt w article topic language) 4000)))).
Proof.
  unfold improve_article, bind, emit.
  rewrite (call_groq_api_accepted cfg w _ _ _ accepted), <- app_assoc.
  reflexivity.
Qed.

(** The checks pass only after one completion call, the connection test. *)
Lemma preflight_passed (t t0 : trace) :
  preflight cfg w t = (t0, Val tt) ->
  completions t0 = completions t ++ [test_request cfg].
Proof.
  unfold preflight. intros H.
  pose proof accepted as Hk. unfold key_accepted in Hk.
  apply andb_true_iff in Hk. destruct Hk as [H1 H2]. apply negb_true_iff in H1.
  rewrite H1, H2 in H. cbn [negb] in H.
  rewrite (bind_val _ _ t t tt eq_refl) in H.
  rewrite (bind_val _ _ t t tt eq_refl) in H.
  rewrite (bind_val _ _ t _ tt eq_refl) in H.
  rewrite (bind_val _ _ _ _ _ (call_groq_api_accepted cfg w _ _ _ accepted)) in H.
  apply bind_inv in H. destruct H as (t1 & failed & Hf & H).
  apply lift_inv in Hf. destruct Hf as [Hf ->].
  destruct failed; [discriminate |].
  rewrite (bind_val _ _ _ _ tt eq_refl) in H.
  rewrite (bind_val _ _ _ _ tt eq_refl) in H.
  destruct (falsy (SERPER_API_KEY cfg)); injection H as <-;
    repeat rewrite completions_app; simpl; rewrite ?app_nil_r; reflexivity.
Qed.

End RunFacts.

Section PipelineFacts.

Variable cfg : config.
Variable w : world.
Variables topic language : pystr.

Local Abbreviation rt := (python w).

Lemma preflight_rejected (t : trace) :
  key_accepted cfg = false ->
  preflight cfg w t
  = (t ++ (if falsy (GROQ_API_KEY cfg)
           then [Ui st_error (VStr (cross ++ py " GROQ_API_KEY not found!"));
                 Ui st_markdown (VStr key_help)]
           else [Ui st_error (VStr (cross ++ py " Invalid Groq API key format!"));
                 Ui st_info (VStr (py "Your Groq API key should start with 'gsk_'. Please check your .env file."))]),
     Stop).
Proof.
  unfold key_accepted, preflight. intros H.
  destruct (falsy (GROQ_API_KEY cfg)).
  - unfold bind, emit, st_stop. rewrite <- app_assoc. reflexivity.
  - cbn [negb andb] in H. rewrite H.
    unfold bind, emit, st_stop, ret. cbn [negb]. rewrite <- app_assoc.
    reflexivity.
Qed.

Lemma preflight_passed_key (t t0 : trace) :
  preflight cfg w t = (t0, Val tt) -> key_accepted cfg = true.
Proof.
  intros H. destruct (key_accepted cfg) eqn:Hk; [reflexivity |].
  rewrite (preflight_rejected t Hk) in H. discriminate.
Qed.

Lemma pipeline_report_failed (d : depth) (t0 t1 t2 : trace)
    (data : research_data) (report : value) :
  conduct_research cfg w topic t0 = (t1, Val data) ->
  generate_research_report cfg w topic data t1 = (t2, Val report) ->
  has_error w report = inr true ->
  pipeline cfg w topic language d t0
  = (t2 ++ [Ui st_error (VStr (py "Research failed: " ++ py_str rt report))],
     Stop).
Proof.
  intros Hc Hr He. unfold pipeline.
  rewrite (bind_val _ _ _ _ _ Hc), (bind_val _ _ _ _ _ Hr), He.
  reflexivity.
Qed.

Lemma pipeline_article_failed (d : depth) (t0 t1 t2 t3 : trace)
    (data : research_data) (report article : value) :
  conduct_research cfg w topic t0 = (t1, Val data) ->
  generate_research_report cfg w topic data t1 = (t2, Val report) ->
  has_error w report = inr false ->
  generate_article cfg w topic language report d t2 = (t3, Val article) ->
  has_error w article = inr true ->
  pipeline cfg w topic language d t0
  = (t3 ++ [Ui st_error
              (VStr (py "Article generation failed: " ++ py_str rt article))],
     Stop).
Proof.
  intros Hc Hr He Ha He'. unfold pipeline.
  rewrite (bind_val _ _ _ _ _ Hc), (bind_val _ _ _ _ _ Hr), He.
  rewrite (bind_val _ _ t2 t2 false eq_refl).
  rewrite (bind_val _ _ t2 t2 tt eq_refl).
  rewrite (bind_val _ _ _ _ _ Ha), He'.
  reflexivity.
Qed.

Lemma pipeline_basic_done (t0 t1 t2 t3 : trace) (data : research_data)
    (report article : value) :
  conduct_research cfg w topic t0 = (t1, Val data) ->
  generate_research_report cfg w topic data t1 = (t2, Val report) ->
  has_error w report = inr false ->
  generate_article cfg w topic language report Basic t2 = (t3, Val article) ->
  has_error w article = inr false ->
  pipeline cfg w topic language Basic t0 = (t3, Val article).
Proof.
  intros Hc Hr He Ha He'. unfold pipeline.
  rewrite (bind_val _ _ _ _ _ Hc), (bind_val _ _ _ _ _ Hr), He.
  rewrite (bind_val _ _ t2 t2 false eq_refl).
  rewrite (bind_val _ _ t2 t2 tt eq_refl).
  rewrite (bind_val _ _ _ _ _ Ha), He'.
  reflexivity.
Qed.

Lemma pipeline_polish_failed (t0 t1 t2 t3 t4 : trace) (data : research_data)
    (report article polished : value) :
  conduct_research cfg w topic t0 = (t1, Val data) ->
  generate_research_report cfg w topic data t1 = (t2, Val report) ->
  has_error w report = inr false ->
  generate_article cfg w topic language report Detailed t2 = (t3, Val article) ->
  has_error w article = inr false ->
  improve_article cfg w article topic language t3 = (t4, Val polished) ->
  has_error w polished = inr true ->
  pipeline cfg w topic language Detailed t0
  = (t4 ++ [Ui st_warning
              (VStr (py "Article improvement failed, using original version."))],
     Val article).
Proof.
  intros Hc Hr He Ha He' Hi He''. unfold pipeline.
  rewrite (bind_val _ _ _ _ _ Hc), (bind_val _ _ _ _ _ Hr), He.
  rewrite (bind_val _ _ t2 t2 false eq_refl).
  rewrite (bind_val _ _ t2 t2 tt eq_refl).
  rewrite (bind_val _ _ _ _ _ Ha), He'.
  rewrite (bind_val _ _ t3 t3 false eq_refl).
  rewrite (bind_val _ _ t3 t3 tt eq_refl).
  rewrite (bind_val _ _ _ _ _ Hi), He''.
  reflexivity.
Qed.

Lemma pipeline_polish_done (t0 t1 t2 t3 t4 : trace) (data : research_data)
    (report article polished : value) :
  conduct_research cfg w topic t0 = (t1, Val data) ->
  generate_research_report cfg w topic data t1 = (t2, Val report) ->
  has_error w report = inr false ->
  generate_article cfg w topic language report Detailed t2 = (t3, Val article) ->
  has_error w article = inr false ->
  improve_article cfg w article topic language t3 = (t4, Val polished) ->
  has_error w polished = inr false ->
  pipeline cfg w topic language Detailed t0 = (t4, Val polished).
Proof.
  intros Hc Hr He Ha He' Hi He''. unfold pipeline.
  rewrite (bind_val _ _ _ _ _ Hc), (bind_val _ _ _ _ _ Hr), He.
  rewrite (bind_val _ _ t2 t2 false eq_refl).
  rewrite (bind_val _ _ t2 t2 tt eq_refl).
  rewrite (bind_val _ _ _ _ _ Ha), He'.
  rewrite (bind_val _ _ t3 t3 false eq_refl).
  rewrite (bind_val _ _ t3 t3 tt eq_refl).
  rewrite (bind_val _ _ _ _ _ Hi), He''.
  reflexivity.
Qed.

Lemma main_block_stopped (d : depth) (t t0 t' : trace) :
  preflight cfg w t = (t0, Val tt) ->
  pipeline cfg w topic language d t0 = (t', Stop) ->
  main_block cfg w topic language d t = (t', Stop).
Proof.
  intros Hp Hs. unfold main_block.
  rewrite (bind_val _ _ _ _ _ Hp).
  apply try_stop. apply bind_stop. exact Hs.
Qed.

Lemma main_block_done (d : depth) (t t0 t' : trace) (final : value) :
  preflight cfg w t = (t0, Val tt) ->
  pipeline cfg w topic language d t0 = (t', Val final) ->
  main_block cfg w topic language d t
  = (t' ++ [Ui st_markdown final], Val (Some final)).
Proof.
  intros Hp Hs. unfold main_block.
  rewrite (bind_val _ _ _ _ _ Hp).
  apply try_val. rewrite (bind_val _ _ _ _ _ Hs). reflexivity.
Qed.

Lemma main_block_caught (d : depth) (t t0 t' : trace) (e : exn) :
  preflight cfg w t = (t0, Val tt) ->
  pipeline cfg w topic language d t0 = (t', Exc e) ->
  main_block cfg w topic language d t
  = (t' ++ [Ui st_error (VStr (cross ++ py " An error occurred: " ++ exn_str e));
            Ui st_info (VStr (py "Please try again or check your API keys."))],
     Val None).
Proof.
  intros Hp Hs. unfold main_block.
  rewrite (bind_val _ _ _ _ _ Hp).
  rewrite (try_exc _ _ _ t' e).
  - unfold main_except, bind, emit, ret. rewrite <- app_assoc. reflexivity.
  - apply bind_exc. exact Hs.
Qed.

End PipelineFacts.

(** ** Reading a finished run backwards *)

Section Inversion.

Variable cfg : config.
Variable w : world.
Variables topic language : pystr.

Lemma guard_inv {B} (failed : bool) (ev : event) (f : unit -> M B)
    (t t' : trace) (b : B) :
  bind (if failed then emit ev ;; st_stop else ret tt) f t = (t', Val b) ->
  failed = false /\ f tt t = (t', Val b).
Proof.
  destruct failed; unfold bind, emit, st_stop, ret; simpl; intros H;
    [discriminate | split; [reflexivity | exact H]].
Qed.

Lemma pipeline_basic_inv (t0 t' : trace) (final : value) :
  pipeline cfg w topic language Basic t0 = (t', Val final) ->
  exists t1 data t2 report,
    conduct_research cfg w topic t0 = (t1, Val data)
    /\ generate_research_report cfg w topic data t1 = (t2, Val report)
    /\ has_error w report = inr false
    /\ generate_article cfg w topic language report Basic t2 = (t', Val final)
    /\ has_error w final = inr false.
Proof.
  unfold pipeline. intros H.
  apply bind_inv in H. destruct H as (t1 & data & Hc & H).
  apply bind_inv in H. destruct H as (t2 & report & Hr & H).
  apply bind_inv in H. destruct H as (t2' & failed & Hf & H).
  apply lift_inv in Hf. destruct Hf as [Hf ->].
  apply guard_inv in H. destruct H as [-> H].
  apply bind_inv in H. destruct H as (t3 & article & Ha & H).
  apply bind_inv in H. destruct H as (t3' & failed & Hf' & H).
  apply lift_inv in Hf'. destruct Hf' as [Hf' ->].
  apply guard_inv in H. destruct H as [-> H].
  injection H as <- <-.
  exists t1, data, t2, report. auto.
Qed.

Lemma main_block_done_inv (d : depth) (t t' : trace) (final : value) :
  main_block cfg w topic language d t = (t', Val (Some final)) ->
  exists t0 tp,
    preflight cfg w t = (t0, Val tt)
    /\ pipeline cfg w topic language d t0 = (tp, Val final)
    /\ t' = tp ++ [Ui st_markdown final].
Proof.
  unfold main_block. intros H.
  apply bind_inv in H. destruct H as (t0 & [] & Hp & H).
  unfold try_except in H.
  destruct (bind (pipeline cfg w topic language d) _ t0) as [tp r] eqn:E.
  destruct r as [a | e |].
  - injection H as -> ->.
    apply bind_inv in E. destruct E as (t1 & final' & Hpl & E).
    unfold bind, emit, ret in E. injection E as <- <-.
    exists t0, t1. auto.
  - unfold main_except, bind, emit, ret in H. discriminate.
  - discriminate.
Qed.

(** In a Basic run nothing starts the polish stage. *)
Lemma call_groq_api_no_polish (prompt : pystr) (mt : Z) :
  appends not_polish (call_groq_api cfg w prompt mt).
Proof.
  unfold call_groq_api.
  destruct (falsy (GROQ_API_KEY cfg)); [apply appends_ret |].
  destruct (negb _); [apply appends_ret |].
  apply appends_try; [| intros e; apply appends_ret].
  apply appends_bind; [| intros r; apply appends_lift].
  intros t. eexists [_]. unfold post_groq. simpl. split; reflexivity.
Qed.

Ltac footprint :=
  repeat match goal with
         | |- appends _ (ret _) => apply appends_ret
         | |- appends _ st_stop => apply appends_stop
         | |- appends _ (lift _) => apply appends_lift
         | |- appends _ (emit _) => apply appends_emit; reflexivity
         | |- appends _ (call_groq_api _ _ _ _) => apply call_groq_api_no_polish
         | |- appends _ (bind _ _) => apply appends_bind; [| intro]
         | |- appends _ (if ?c then _ else _) => destruct c
         end.

Lemma preflight_no_polish : appends not_polish (preflight cfg w).
Proof. unfold preflight. footprint. Qed.

Lemma pipeline_basic_no_polish :
  appends not_polish (pipeline cfg w topic language Basic).
Proof.
  unfold pipeline.
  apply appends_bind.
  { apply (appends_weaken quiet); [| apply conduct_research_quiet].
    intros e He. unfold quiet in He. apply andb_true_iff in He. tauto. }
  intros data. unfold generate_research_report, generate_article. footprint.
Qed.

Lemma main_block_basic_no_polish :
  appends not_polish (main_block cfg w topic language Basic).
Proof.
  unfold main_block.
  apply appends_bind; [apply preflight_no_polish |]. intros _.
  apply appends_try.
  - apply appends_bind; [apply pipeline_basic_no_polish |]. intros final.
    footprint.
  - intros e. unfold main_except. footprint.
Qed.

End Inversion.

(** ** The pipeline *)

(** C2: once the checks have passed and the gatherer has returned, a failed
    report call ends the run right there: the trace ends with the call and
    the error message, which shows the failure string the call returned, no
    article or polish stage runs, and the script is stopped.  Likewise a failed article call, after a report without
    "Error", ends the run before any polish stage. *)
Theorem C2_failed_stage_ends_the_run (cfg : config) (w : world)
    (topic language : pystr) (d : depth) (t0 t1 : trace)
    (data : research_data) :
  preflight cfg w [] = (t0, Val tt) ->
  conduct_research cfg w topic t0 = (t1, Val data) ->
  (failed_call w (groq w (t1 ++ [Ui st_write (VStr step2)])
                    (groq_data cfg (research_prompt w topic data) 2500)) = true ->
   exists msg,
     reply cfg w (groq w (t1 ++ [Ui st_write (VStr step2)])
                    (groq_data cfg (research_prompt w topic data) 2500))
     = VStr msg
     /\ startswith msg (py "Error") = true
     /\ main_block cfg w topic language d []
        = (t1 ++ [Ui st_write (VStr step2);
                  GroqPost (groq_data cfg (research_prompt w topic data) 2500);
                  Ui st_error (VStr (py "Research failed: " ++ msg))],
           Stop))
  /\ (forall (t2 : trace) (report : value),
        generate_research_report cfg w topic data t1 = (t2, Val report) ->
        has_error w report = inr false ->
        failed_call w (groq w (t2 ++ [Ui st_write (VStr (step3 language))])
                         (groq_data cfg (article_prompt w topic language report d) 3500))
        = true ->
        exists msg,
          reply cfg w (groq w (t2 ++ [Ui st_write (VStr (step3 language))])
                         (groq_data cfg
                            (article_prompt w topic language report d) 3500))
          = VStr msg
          /\ startswith msg (py "Error") = true
          /\ main_block cfg w topic language d []
             = (t2 ++ [Ui st_write (VStr (step3 language));
                       GroqPost (groq_data cfg
                                   (article_prompt w topic language report d) 3500);
                       Ui st_error (VStr (py "Article generation failed: " ++ msg))],
                Stop)).
Proof.
  intros Hp Hc. pose proof (preflight_passed_key cfg w [] t0 Hp) as Hk. split.
  - intros Hf.
    destruct (failed_call_reply cfg w _ Hf) as (msg & Hm & He).
    exists msg. split; [exact Hm |]. split; [exact He |].
    pose proof (generate_research_report_run cfg w Hk topic data t1) as Hr.
    rewrite Hm in Hr.
    rewrite (main_block_stopped cfg w topic language d [] t0 _ Hp
               (pipeline_report_failed cfg w topic language d t0 t1 _ data _
                  Hc Hr (error_text_in w (VStr msg) He))).
    rewrite <- app_assoc. reflexivity.
  - intros t2 report Hr Hok Hf.
    destruct (failed_call_reply cfg w _ Hf) as (msg & Hm & He).
    exists msg. split; [exact Hm |]. split; [exact He |].
    pose proof (generate_article_run cfg w Hk topic language report d t2) as Ha.
    rewrite Hm in Ha.
    rewrite (main_block_stopped cfg w topic language d [] t0 _ Hp
               (pipeline_article_failed cfg w topic language d t0 t1 t2 _ data
                  report _ Hc Hr Hok Ha (error_text_in w (VStr msg) He))).
    rewrite <- app_assoc. reflexivity.
Qed.

Lemma C2_failed_stage_ends_the_run_witness :
  snd (main_block demo_cfg report_fails demo_topic english Detailed []) = Stop
  /\ snd (main_block demo_cfg article_fails demo_topic english Detailed []) = Stop.
Proof.
  split.
  - edestruct (C2_failed_stage_ends_the_run demo_cfg report_fails demo_topic
                 english Detailed) as [H _]; [reflexivity | reflexivity |].
    destruct (H eq_refl) as (msg & _ & _ & E). rewrite E. reflexivity.
  - edestruct (C2_failed_stage_ends_the_run demo_cfg article_fails demo_topic
                 english Detailed) as [_ H]; [reflexivity | reflexivity |].
    edestruct H as (msg & _ & _ & E); [reflexivity | reflexivity | reflexivity |].
    rewrite E. reflexivity.
Defined.

(** C3: in a Detailed run whose report and article stages went through, a
    failed polish call does not fail the run: the warning is shown and the
    final article is the text of the article stage, unchanged. *)
Theorem C3_failed_polish_keeps_the_article (cfg : config) (w : world)
    (topic language : pystr) (t0 t1 t2 t3 : trace) (data : research_data)
    (report article : value) :
  preflight cfg w [] = (t0, Val tt) ->
  conduct_research cfg w topic t0 = (t1, Val data) ->
  generate_research_report cfg w topic data t1 = (t2, Val report) ->
  has_error w report = inr false ->
  generate_article cfg w topic language report Detailed t2 = (t3, Val article) ->
  has_error w article = inr false ->
  failed_call w (groq w (t3 ++ [Ui st_write (VStr step4)])
                   (groq_data cfg (improvement_prompt w article topic language) 4000))
  = true ->
  main_block cfg w topic language Detailed []
  = (t3 ++ [Ui st_write (VStr step4);
            GroqPost (groq_data cfg (improvement_prompt w article topic language) 4000);
            Ui st_warning
              (VStr (py "Article improvement failed, using original version."));
            Ui st_markdown article],
     Val (Some article)).
Proof.
  intros Hp Hc Hr Hok Ha Hok' Hf.
  pose proof (preflight_passed_key cfg w [] t0 Hp) as Hk.
  destruct (failed_call_reply cfg w _ Hf) as (msg & Hm & He).
  pose proof (improve_article_run cfg w Hk article topic language t3) as Hi.
  rewrite Hm in Hi.
  rewrite (main_block_done cfg w topic language Detailed [] t0 _ article Hp
             (pipeline_polish_failed cfg w topic language t0 t1 t2 t3 _ data
                report article _ Hc Hr Hok Ha Hok' Hi
                (error_text_in w (VStr msg) He))).
  rewrite <- !app_assoc. reflexivity.
Qed.

Lemma C3_failed_polish_keeps_the_article_witness :
  snd (main_block demo_cfg polish_fails demo_topic english Detailed [])
  = Val (Some (VStr (py "An article."))).
Proof.
  erewrite (C3_failed_polish_keeps_the_article demo_cfg polish_fails
              demo_topic english); reflexivity.
Defined.

(** C4, as amended: in a Basic run the polish stage is never started, and a
    run that reaches the end has sent exactly three requests to the
    completion service, the connection test, the report and the article, and
    ends with the answer to the article request as its final text, whatever
    that text is. *)
Theorem C4_basic_run_makes_three_calls (cfg : config) (w : world)
    (topic language : pystr) (t : trace) (r : res (option value)) :
  main_block cfg w topic language Basic [] = (t, r) ->
  existsb polish_start t = false
  /\ (forall final, r = Val (Some final) ->
      exists t2 data report,
        completions t
        = [test_request cfg;
           groq_data cfg (research_prompt w topic data) 2500;
           groq_data cfg (article_prompt w topic language report Basic) 3500]
        /\ generate_article cfg w topic language report Basic t2
           = (t2 ++ [Ui st_write (VStr (step3 language));
                     GroqPost (groq_data cfg
                                 (article_prompt w topic language report Basic)
                                 3500)],
              Val final)
        /\ t = t2 ++ [Ui st_write (VStr (step3 language));
                      GroqPost (groq_data cfg
                                  (article_prompt w topic language report Basic)
                                  3500);
                      Ui st_markdown final]).
Proof.
  intros H. split.
  - destruct (main_block_basic_no_polish cfg w topic language [])
      as (es & Ht & Hes).
    rewrite H in Ht. simpl in Ht. subst t. apply polish_none. exact Hes.
  - intros final ->.
    apply main_block_done_inv in H. destruct H as (t0 & tp & Hp & Hpl & ->).
    apply pipeline_basic_inv in Hpl.
    destruct Hpl as (t1 & data & t2 & report & Hc & Hr & Hok & Ha & Hok').
    pose proof (preflight_passed_key cfg w [] t0 Hp) as Hk.
    pose proof (preflight_passed cfg w Hk [] t0 Hp) as H0.
    pose proof (conduct_research_completions cfg w topic t0 t1 _ Hc) as H1.
    rewrite (generate_research_report_run cfg w Hk) in Hr.
    injection Hr as <- <-.
    pose proof Ha as Ha'.
    rewrite (generate_article_run cfg w Hk) in Ha'.
    injection Ha' as <- E.
    exists (t1 ++ [Ui st_write (VStr step2);
                   GroqPost (groq_data cfg (research_prompt w topic data) 2500)]),
      data,
      (reply cfg w (groq w (t1 ++ [Ui st_write (VStr step2)])
                      (groq_data cfg (research_prompt w topic data) 2500))).
    split; [| split].
    + repeat rewrite completions_app. rewrite H1, H0. reflexivity.
    + rewrite <- E. apply (generate_article_run cfg w Hk).
    + rewrite <- app_assoc. reflexivity.
Qed.

Lemma C4_basic_run_makes_three_calls_witness :
  existsb polish_start
    (fst (main_block demo_cfg all_succeed demo_topic english Basic []))
  = false.
Proof.
  apply (C4_basic_run_makes_three_calls demo_cfg all_succeed demo_topic english
           (fst (main_block demo_cfg all_succeed demo_topic english Basic []))
           (snd (main_block demo_cfg all_succeed demo_topic english Basic []))).
  vm_compute. reflexivity.
Defined.

(** C4, as stated, fails: a Basic run that reaches the end has made three
    completion calls, not two, and its article may be empty. *)
Lemma C4_counterexample :
  snd (main_block demo_cfg empty_article demo_topic english Basic [])
  = Val (Some (VStr []))
  /\ List.length
       (completions
          (fst (main_block demo_cfg empty_article demo_topic english Basic [])))
     = 3.
Proof. split; vm_compute; reflexivity. Qed.

(** C7: with the key missing, or not starting with "gsk_",
    [call_groq_api] returns its failure string and leaves the trace as it
    was, so it has made no network call; and a run started in that state
    shows the error about the key and stops, with no network call in its
    trace. *)
Theorem C7_rejected_key_makes_no_call (cfg : config) (w : world)
    (prompt : pystr) (mt : Z) (t : trace) (topic language : pystr)
    (d : depth) :
  (falsy (GROQ_API_KEY cfg) = true ->
   call_groq_api cfg w prompt mt t
   = (t, Val (VStr (py "Error: Groq API key not found.")))
   /\ main_block cfg w topic language d []
      = ([Ui st_error (VStr (cross ++ py " GROQ_API_KEY not found!"));
          Ui st_markdown (VStr key_help)],
         Stop))
  /\ (falsy (GROQ_API_KEY cfg) = false ->
      startswith (key_text (GROQ_API_KEY cfg)) (py "gsk_") = false ->
      call_groq_api cfg w prompt mt t
      = (t, Val (VStr (py "Error: Invalid Groq API key format. Key should start with 'gsk_'")))
      /\ main_block cfg w topic language d []
         = ([Ui st_error (VStr (cross ++ py " Invalid Groq API key format!"));
             Ui st_info (VStr (py "Your Groq API key should start with 'gsk_'. Please check your .env file."))],
            Stop)).
Proof.
  split.
  - intros Hm. split.
    + unfold call_groq_api. rewrite Hm. reflexivity.
    + unfold main_block. apply bind_stop.
      rewrite preflight_rejected; [| unfold key_accepted; rewrite Hm; reflexivity].
      rewrite Hm. reflexivity.
  - intros Hm Hs. split.
    + unfold call_groq_api. rewrite Hm, Hs. reflexivity.
    + unfold main_block. apply bind_stop.
      rewrite preflight_rejected;
        [| unfold key_accepted; rewrite Hm, Hs; reflexivity].
      rewrite Hm. reflexivity.
Qed.

Lemma C7_rejected_key_makes_no_call_witness :
  existsb network_call
    (fst (main_block no_key_cfg all_succeed demo_topic english Detailed []))
  = false
  /\ existsb network_call
       (fst (main_block bad_key_cfg all_succeed demo_topic english Detailed []))
     = false.
Proof.
  split.
  - destruct (C7_rejected_key_makes_no_call no_key_cfg all_succeed (py "hi") 20 []
                demo_topic english Detailed) as [H _].
    destruct (H eq_refl) as [_ E]. rewrite E. reflexivity.
  - destruct (C7_rejected_key_makes_no_call bad_key_cfg all_succeed (py "hi") 20 []
                demo_topic english Detailed) as [_ H].
    destruct (H eq_refl eq_refl) as [_ E]. rewrite E. reflexivity.
Defined.

(** C9: success and failure travel in one string.  The text of a
    successful completion is returned as it is, and the script takes the
    result of a stage for a failure exactly when "Error" occurs in it: a
    report with "Error" in it stops the run and one without lets the article
    stage run; an article with "Error" in it stops the run and one without
    is kept; a polished text with "Error" in it is dropped for the article
    and one without becomes the final text. *)
Theorem C9_error_in_the_text_is_a_failure (cfg : config) (w : world)
    (topic language : pystr) (d : depth) (t0 t1 t2 : trace)
    (data : research_data) (s : pystr) :
  preflight cfg w [] = (t0, Val tt) ->
  conduct_research cfg w topic t0 = (t1, Val data) ->
  generate_research_report cfg w topic data t1 = (t2, Val (VStr s)) ->
  (forall (t : trace) (prompt : pystr) (mt : Z) (r : response) (c : value),
      groq w t (groq_data cfg prompt mt) = inr r ->
      content_of w r = Some c ->
      call_groq_api cfg w prompt mt t
      = (t ++ [GroqPost (groq_data cfg prompt mt)], Val c))
  /\ (str_in (py "Error") s = true ->
      main_block cfg w topic language d []
      = (t2 ++ [Ui st_error (VStr (py "Research failed: " ++ s))], Stop))
  /\ (str_in (py "Error") s = false ->
      forall (t3 : trace) (a : pystr),
        generate_article cfg w topic language (VStr s) d t2 = (t3, Val (VStr a)) ->
        (str_in (py "Error") a = true ->
         main_block cfg w topic language d []
         = (t3 ++ [Ui st_error (VStr (py "Article generation failed: " ++ a))],
            Stop))
        /\ (str_in (py "Error") a = false ->
            match d with
            | Basic =>
                main_block cfg w topic language d []
                = (t3 ++ [Ui st_markdown (VStr a)], Val (Some (VStr a)))
            | Detailed =>
                forall (t4 : trace) (p : pystr),
                  improve_article cfg w (VStr a) topic language t3
                  = (t4, Val (VStr p)) ->
                  main_block cfg w topic language d []
                  = if str_in (py "Error") p
                    then (t4 ++ [Ui st_warning
                                   (VStr (py "Article improvement failed, using original version."));
                                 Ui st_markdown (VStr a)],
                          Val (Some (VStr a)))
                    else (t4 ++ [Ui st_markdown (VStr p)], Val (Some (VStr p)))
            end)).
Proof.
  intros Hp Hc Hr.
  pose proof (preflight_passed_key cfg w [] t0 Hp) as Hk.
  assert (Hin : forall x b, str_in (py "Error") x = b -> has_error w (VStr x) = inr b).
  { intros x b <-. reflexivity. }
  split; [| split].
  - intros t prompt mt r c Hg Hcont.
    rewrite (call_groq_api_accepted cfg w prompt mt t Hk), Hg.
    unfold reply. rewrite (content_read cfg w r c Hcont). reflexivity.
  - intros He.
    apply (main_block_stopped cfg w topic language d [] t0 _ Hp).
    apply (pipeline_report_failed cfg w topic language d t0 t1 t2 data _ Hc Hr).
    apply Hin. exact He.
  - intros He t3 a Ha. split.
    + intros He'.
      apply (main_block_stopped cfg w topic language d [] t0 _ Hp).
      apply (pipeline_article_failed cfg w topic language d t0 t1 t2 t3 data
               _ _ Hc Hr (Hin _ _ He) Ha (Hin _ _ He')).
    + intros He'. destruct d.
      * apply (main_block_done cfg w topic language Basic [] t0 _ _ Hp).
        apply (pipeline_basic_done cfg w topic language t0 t1 t2 t3 data
                 _ _ Hc Hr (Hin _ _ He) Ha (Hin _ _ He')).
      * intros t4 p Hi. destruct (str_in (py "Error") p) eqn:He''.
        -- rewrite (main_block_done cfg w topic language Detailed [] t0 _ _ Hp
                      (pipeline_polish_failed cfg w topic language t0 t1 t2 t3
                         t4 data _ _ _ Hc Hr (Hin _ _ He) Ha (Hin _ _ He') Hi
                         (Hin _ _ He''))).
           rewrite <- app_assoc. reflexivity.
        -- apply (main_block_done cfg w topic language Detailed [] t0 _ _ Hp).
           apply (pipeline_polish_done cfg w topic language t0 t1 t2 t3 t4
                    data _ _ _ Hc Hr (Hin _ _ He) Ha (Hin _ _ He') Hi
                    (Hin _ _ He'')).
Qed.

Lemma C9_error_in_the_text_is_a_failure_witness :
  snd (main_block demo_cfg report_about_errors demo_topic english Detailed [])
  = Stop.
Proof.
  edestruct (C9_error_in_the_text_is_a_failure demo_cfg report_about_errors
               demo_topic english Detailed) as (_ & H & _);
    [reflexivity | reflexivity | reflexivity |].
  rewrite (H eq_refl). reflexivity.
Defined.

(** ** The gatherer *)

(** A search never raises: a failure of the transport, of the status check
    or of the reading of the body is reported as a warning and gives the
    empty list. *)
Lemma web_search_never_raises (cfg : config) (w : world) (query : pystr)
    (n : Z) (t : trace) :
  exists t' hits, web_search cfg w query n t = (t', Val hits).
Proof.
  unfold web_search.
  destruct (falsy (SERPER_API_KEY cfg)); [eexists; eexists; reflexivity |].
  unfold try_except, bind, post_serper, lift, emit, ret, raise.
  destruct (serper w t _) as [e | r]; [eexists; eexists; reflexivity |].
  destruct (raise_for_status w r); [eexists; eexists; reflexivity |].
  destruct (read_results w r); eexists; eexists; reflexivity.
Qed.

Lemma web_search_failure_is_empty (cfg : config) (w : world) (query : pystr)
    (n : Z) (t : trace) (e : exn) :
  falsy (SERPER_API_KEY cfg) = false ->
  serper w t {| x_api_key := key_text (SERPER_API_KEY cfg); q := query; num := n |}
  = inl e ->
  snd (web_search cfg w query n t) = Val [].
Proof.
  intros Hk He. unfold web_search. rewrite Hk.
  unfold try_except, bind, post_serper. rewrite He. reflexivity.
Qed.

(** C8 fails on the code: when the encyclopedia cannot be reached,
    [wikipedia.summary] raises a connection error, which is neither of the
    two classes [wikipedia_search] handles, and [conduct_research] raises
    instead of returning the research data. *)
Theorem C8_encyclopedia_failure_escapes :
  snd (conduct_research demo_cfg (wikipedia_down []) demo_topic []) = Exc offline.
Proof. vm_compute. reflexivity. Qed.

(** * Further properties *)

(** ** Searching the web *)

Lemma str_in_mid (k a b : pystr) : str_in k (a ++ k ++ b) = true.
Proof. apply str_in_app_l, startswith_in, startswith_app. Qed.

Lemma collect_hits_entries (w : world) (entries : list (list (pystr * value))) :
  collect_hits w (map VDict entries) = inr (map hit_of entries).
Proof.
  induction entries as [| entry rest IH]; [reflexivity |].
  cbn [collect_hits map]. rewrite IH. reflexivity.
Qed.

(** X1: a search never raises and sends at most one request.  Without a
    search key it returns the empty list and touches nothing; with a key it
    either returns hits after its one request, or shows a warning with the
    text of the exception and returns the empty list. *)
Theorem X1_web_search_contained (cfg : config) (w : world) (query : pystr)
    (n : Z) (t : trace) :
  (falsy (SERPER_API_KEY cfg) = true
   /\ web_search cfg w query n t = (t, Val []))
  \/ (falsy (SERPER_API_KEY cfg) = false
      /\ exists hits,
        web_search cfg w query n t
        = (t ++ [SerperPost {| x_api_key := key_text (SERPER_API_KEY cfg);
                               q := query; num := n |}],
           Val hits))
  \/ (falsy (SERPER_API_KEY cfg) = false
      /\ exists e,
        web_search cfg w query n t
        = (t ++ [SerperPost {| x_api_key := key_text (SERPER_API_KEY cfg);
                               q := query; num := n |};
                 Ui st_warning (VStr (py "Web search error: " ++ exn_str e))],
           Val [])).
Proof.
  unfold web_search. destruct (falsy (SERPER_API_KEY cfg)).
  - left. split; reflexivity.
  - right.
    unfold try_except, bind, post_serper, lift, emit, ret, raise.
    destruct (serper w t _) as [e | r].
    { right. split; [reflexivity |]. exists e. rewrite <- app_assoc. reflexivity. }
    destruct (raise_for_status w r) as [e | []].
    { right. split; [reflexivity |]. exists e. rewrite <- app_assoc. reflexivity. }
    destruct (read_results w r) as [e | hits].
    { right. split; [reflexivity |]. exists e. rewrite <- app_assoc. reflexivity. }
    left. split; [reflexivity |]. exists hits. reflexivity.
Qed.

(** X2: when the search service answers with a status outside 400-599 and
    a body whose "organic" field is a list of objects, the search returns
    one hit per object, in the order of the list, each field taken from the
    object and the empty string where the object lacks it. *)
Theorem X2_web_search_reads_every_entry (cfg : config) (w : world)
    (query : pystr) (n : Z) (t : trace) (r : response)
    (body : list (pystr * value)) (entries : list (list (pystr * value))) :
  falsy (SERPER_API_KEY cfg) = false ->
  serper w t {| x_api_key := key_text (SERPER_API_KEY cfg); q := query; num := n |}
  = inr r ->
  (status_code r < 400 \/ 600 <= status_code r)%Z ->
  json r = inr (VDict body) ->
  lookup (py "organic") body = Some (VList (map VDict entries)) ->
  web_search cfg w query n t
  = (t ++ [SerperPost {| x_api_key := key_text (SERPER_API_KEY cfg);
                         q := query; num := n |}],
     Val (map hit_of entries)).
Proof.
  intros Hk Hs Hc Hj Ho. unfold web_search. rewrite Hk.
  unfold try_except, bind, post_serper. rewrite Hs.
  unfold raise_for_status.
  replace ((400 <=? status_code r)%Z && (status_code r <? 600)%Z) with false
    by (symmetry; apply andb_false_iff; destruct Hc;
        [left; apply Z.leb_gt; lia | right; apply Z.ltb_ge; lia]).
  cbn [lift ret]. unfold read_results, bindE. rewrite Hj.
  unfold py_in, py_getitem. rewrite Ho. cbn [py_iter].
  rewrite collect_hits_entries. reflexivity.
Qed.

Lemma X2_web_search_reads_every_entry_witness :
  snd (web_search demo_cfg (scripted []) (py "AI trends") 3 [])
  = Val (map hit_of three_entries).
Proof.
  rewrite (X2_web_search_reads_every_entry demo_cfg (scripted [])
             (py "AI trends") 3 [] three_hits
             [(py "organic", VList (map VDict three_entries))] three_entries);
    try reflexivity.
  left. vm_compute. reflexivity.
Defined.

(** X3: a response of the search service with a status from 400 to 599 is
    a failed search, whatever its body holds: the warning is shown and the
    result is the empty list. *)
Theorem X3_web_search_http_error (cfg : config) (w : world) (query : pystr)
    (n : Z) (t : trace) (r : response) :
  falsy (SERPER_API_KEY cfg) = false ->
  serper w t {| x_api_key := key_text (SERPER_API_KEY cfg); q := query; num := n |}
  = inr r ->
  (400 <= status_code r < 600)%Z ->
  web_search cfg w query n t
  = (t ++ [SerperPost {| x_api_key := key_text (SERPER_API_KEY cfg);
                         q := query; num := n |};
           Ui st_warning
             (VStr (py "Web search error: "
                    ++ fault_text (python w) RequestException "raise_for_status"
                         (VNum (str_of_Z (status_code r)))))],
     Val []).
Proof.
  intros Hk Hs Hc. unfold web_search. rewrite Hk.
  unfold try_except, bind, post_serper. rewrite Hs.
  unfold raise_for_status.
  replace ((400 <=? status_code r)%Z && (status_code r <? 600)%Z) with true
    by (symmetry; apply andb_true_iff; split;
        [apply Z.leb_le; lia | apply Z.ltb_lt; lia]).
  unfold lift, raise, emit, ret. rewrite <- app_assoc. reflexivity.
Qed.

Lemma X3_web_search_http_error_witness :
  snd (web_search demo_cfg search_refused (py "AI trends") 3 []) = Val [].
Proof.
  rewrite (X3_web_search_http_error demo_cfg search_refused (py "AI trends") 3 []
             {| status_code := 429; text := text three_hits;
                json := json three_hits |});
    [reflexivity | reflexivity | reflexivity | simpl; lia].
Defined.

(** ** The encyclopedia and the gatherer *)


Lemma wikipedia_except_outcome (w : world) (e : exn) (t : trace) :
  match snd (wikipedia_except w e t) with
  | Val info =>
      url info = [] /\ wiki_title info = []
      /\ (summary info = py "No Wikipedia page found for this topic."
          \/ exists options,
            summary info
            = py "Multiple topics found: "
              ++ repr (python w) (VList (map VStr (firstn 5 options))))
  | Exc e' => e' = e /\ handled e = false
  | Stop => False
  end.
Proof.
  unfold wikipedia_except, handled.
  destruct (cls e) as [| | | | | | | | | | options | |]; simpl;
    try (split; reflexivity).
  - repeat split. right. exists options. reflexivity.
  - repeat split. left. reflexivity.
Qed.

(** X4: an encyclopedia lookup asks for the summary and, only when that
    succeeded, for the page; the first of the two calls that raises decides
    the outcome by the class of its exception.  A disambiguation gives the
    summary "Multiple topics found: " followed by the list of the first five
    of the exception's candidates (all of them when there are fewer), a
    missing page gives "No Wikipedia page found for this topic.", both with
    empty URL and title, and an exception of any other class leaves the
    function.  When both calls succeed the result is the summary with the
    page's URL and title. *)
Theorem X4_wikipedia_search_outcomes (w : world) (topic : pystr) (t : trace) :
  (forall e tr,
      (wikipedia_summary w t topic = inl e /\ tr = t ++ [WikipediaSummary topic])
      \/ ((exists s, wikipedia_summary w t topic = inr s)
          /\ wikipedia_page_of w (t ++ [WikipediaSummary topic]) topic = inl e
          /\ tr = t ++ [WikipediaSummary topic; WikipediaPage topic]) ->
      (forall options,
          cls e = DisambiguationError options ->
          wikipedia_search w topic t
          = (tr,
             Val {| summary := py "Multiple topics found: "
                               ++ repr (python w)
                                    (VList (map VStr (firstn 5 options)));
                    url := [];
                    wiki_title := [] |})
          /\ List.length (firstn 5 options) = Nat.min 5 (List.length options))
      /\ (cls e = PageError ->
          wikipedia_search w topic t
          = (tr,
             Val {| summary := py "No Wikipedia page found for this topic.";
                    url := [];
                    wiki_title := [] |}))
      /\ (handled e = false -> wikipedia_search w topic t = (tr, Exc e)))
  /\ (forall s page,
         wikipedia_summary w t topic = inr s ->
         wikipedia_page_of w (t ++ [WikipediaSummary topic]) topic = inr page ->
         wikipedia_search w topic t
         = (t ++ [WikipediaSummary topic; WikipediaPage topic],
            Val {| summary := s;
                   url := page_url page;
                   wiki_title := page_title page |})).
Proof.
  split.
  - intros e tr Hfail.
    assert (H : wikipedia_search w topic t = wikipedia_except w e tr).
    { unfold wikipedia_search, try_except, bind, get_summary, get_page.
      destruct Hfail as [[Hs ->] | [[s Hs] [Hp ->]]]; rewrite Hs.
      - reflexivity.
      - rewrite Hp. rewrite <- app_assoc. reflexivity. }
    rewrite H. unfold wikipedia_except, handled. split; [| split].
    + intros options ->. split; [reflexivity | apply length_firstn].
    + intros ->. reflexivity.
    + destruct (cls e); intros Hh; try discriminate; reflexivity.
  - intros s page Hs Hp.
    unfold wikipedia_search, try_except, bind, get_summary, get_page.
    rewrite Hs, Hp. unfold ret. rewrite <- app_assoc. reflexivity.
Qed.

Lemma X4_wikipedia_search_outcomes_witness :
  snd (wikipedia_search (wikipedia_ambiguous []) (py "Mercury") [])
  = Val {| summary := py "Multiple topics found: "
                      ++ repr plain_runtime
                           (VList (map VStr
                                     [py "Mercury (planet)"; py "Mercury (element)";
                                      py "Mercury (god)"; py "Mercury Records";
                                      py "Mercury (programming language)"]));
           url := [];
           wiki_title := [] |}.
Proof.
  destruct (X4_wikipedia_search_outcomes (wikipedia_ambiguous []) (py "Mercury") [])
    as [H _].
  destruct (H ambiguous [WikipediaSummary (py "Mercury")]
              (or_introl (conj eq_refl eq_refl))) as (Hd & _ & _).
  destruct (Hd _ eq_refl) as [E _]. rewrite E. reflexivity.
Defined.







(** ** How many calls a run makes *)

Section Budget.

Variable P : event -> bool.

Lemma count_app (a b : trace) : count P (a ++ b) = count P a + count P b.
Proof. unfold count. rewrite filter_app, length_app. reflexivity. Qed.

Lemma costs_ret {A} (a : A) : costs P 0 (ret a).
Proof. intros t. exists []. rewrite app_nil_r. split; [reflexivity | unfold count; simpl; lia]. Qed.

Lemma costs_raise {A} (e : exn) : costs P 0 (@raise A e).
Proof. intros t. exists []. rewrite app_nil_r. split; [reflexivity | unfold count; simpl; lia]. Qed.

Lemma costs_stop {A} : costs P 0 (@st_stop A).
Proof. intros t. exists []. rewrite app_nil_r. split; [reflexivity | unfold count; simpl; lia]. Qed.

Lemma costs_lift {A} (r : exn + A) : costs P 0 (lift r).
Proof. destruct r; [apply costs_raise | apply costs_ret]. Qed.

Lemma costs_le {A} (n n' : nat) (m : M A) :
  n <= n' -> costs P n m -> costs P n' m.
Proof.
  intros Hn Hm t. destruct (Hm t) as (es & Ht & Hc).
  exists es. split; [exact Ht | lia].
Qed.

Lemma costs_bind {A B} (n1 n2 : nat) (m : M A) (f : A -> M B) :
  costs P n1 m -> (forall a, costs P n2 (f a)) -> costs P (n1 + n2) (bind m f).
Proof.
  intros Hm Hf t. unfold bind.
  destruct (Hm t) as (es & Ht & Hc).
  destruct (m t) as [t' r]. simpl in Ht. subst t'.
  destruct r as [a | e |].
  - destruct (Hf a (t ++ es)) as (es' & Ht' & Hc').
    exists (es ++ es'). rewrite Ht', app_assoc, count_app.
    split; [reflexivity | lia].
  - exists es. split; [reflexivity | lia].
  - exists es. split; [reflexivity | lia].
Qed.

Lemma costs_try {A} (n1 n2 : nat) (m : M A) (h : exn -> M A) :
  costs P n1 m -> (forall e, costs P n2 (h e)) ->
  costs P (n1 + n2) (try_except m h).
Proof.
  intros Hm Hh t. unfold try_except.
  destruct (Hm t) as (es & Ht & Hc).
  destruct (m t) as [t' r]. simpl in Ht. subst t'.
  destruct r as [a | e |].
  - exists es. split; [reflexivity | lia].
  - destruct (Hh e (t ++ es)) as (es' & Ht' & Hc').
    exists (es ++ es'). rewrite Ht', app_assoc, count_app.
    split; [reflexivity | lia].
  - exists es. split; [reflexivity | lia].
Qed.

(** The front end and the sleeps are free; a search request costs at most
    [s], an encyclopedia request at most [e], a completion request at most
    [c]. *)
Variables s e c : nat.

Hypothesis ui_free : forall k a, P (Ui k a) = false.
Hypothesis sleep_free : forall z, P (Sleep z) = false.
Hypothesis search_cost : forall r, count P [SerperPost r] <= s.
Hypothesis summary_cost : forall topic, count P [WikipediaSummary topic] <= e.
Hypothesis page_cost : forall topic, count P [WikipediaPage topic] <= e.
Hypothesis completion_cost : forall r, count P [GroqPost r] <= c.

Variable cfg : config.
Variable w : world.

Lemma costs_ui {A} (k : st) (a : value) (m : M A) (n : nat) :
  costs P n m -> costs P n (emit (Ui k a) ;; m).
Proof.
  intros Hm. apply (costs_bind 0 n); [| intros _; exact Hm].
  intros t. exists [Ui k a]. split; [reflexivity |].
  unfold count. simpl. rewrite ui_free. simpl. lia.
Qed.

Lemma call_groq_api_costs (prompt : pystr) (mt : Z) :
  costs P c (call_groq_api cfg w prompt mt).
Proof.
  unfold call_groq_api.
  destruct (falsy (GROQ_API_KEY cfg));
    [apply (costs_le 0); [lia | apply costs_ret] |].
  destruct (negb _); [apply (costs_le 0); [lia | apply costs_ret] |].
  apply (costs_le (c + 0 + 0)); [lia |].
  apply costs_try; [| intros x; apply costs_ret].
  apply costs_bind; [| intros r; apply costs_lift].
  intros t. eexists [_]. unfold post_groq. simpl fst.
  split; [reflexivity | apply completion_cost].
Qed.

Lemma web_search_costs (query : pystr) (n : Z) :
  costs P s (web_search cfg w query n).
Proof.
  unfold web_search.
  destruct (falsy (SERPER_API_KEY cfg));
    [apply (costs_le 0); [lia | apply costs_ret] |].
  apply (costs_le (s + (0 + 0) + 0)); [lia |].
  apply costs_try.
  - apply costs_bind.
    + intros t. eexists [_]. unfold post_serper. simpl fst.
      split; [reflexivity | apply search_cost].
    + intros r. apply costs_bind; [apply costs_lift |].
      intros _. apply costs_lift.
  - intros x. apply costs_ui. apply costs_ret.
Qed.

Lemma search_all_costs (queries : list pystr) (acc : list search_hit) :
  costs P (List.length queries * s) (search_all cfg w queries acc).
Proof.
  revert acc. induction queries as [| query rest IH]; intros acc.
  - apply costs_ret.
  - cbn [search_all List.length Nat.mul].
    apply costs_bind; [apply web_search_costs |]. intros results.
    apply (costs_bind 0); [| intros _; apply IH].
    intros t. exists [Sleep 1]. split; [reflexivity |].
    unfold count. simpl. rewrite sleep_free. simpl. lia.
Qed.

Lemma wikipedia_search_costs (topic : pystr) :
  costs P (e + e) (wikipedia_search w topic).
Proof.
  unfold wikipedia_search.
  apply (costs_le (e + (e + 0) + 0)); [lia |].
  apply costs_try.
  - apply costs_bind.
    + intros t. eexists [_]. unfold get_summary. simpl fst.
      split; [reflexivity | apply summary_cost].
    + intros x. apply costs_bind; [| intros page; apply costs_ret].
      intros t. eexists [_]. unfold get_page. simpl fst.
      split; [reflexivity | apply page_cost].
  - intros x. unfold wikipedia_except.
    destruct (cls x); first [apply costs_ret | apply costs_raise].
Qed.

Lemma conduct_research_costs (topic : pystr) :
  costs P (3 * s + (e + e)) (conduct_research cfg w topic).
Proof.
  unfold conduct_research. apply costs_ui.
  apply (costs_le (3 * s + ((e + e) + 0))); [lia |].
  apply costs_bind; [apply (search_all_costs (queries_for topic)) |].
  intros hits. apply costs_bind; [apply wikipedia_search_costs |].
  intros wiki. apply costs_ui. apply costs_ret.
Qed.

Lemma guard_costs (failed : bool) (k : st) (a : value) :
  costs P 0 (if failed then emit (Ui k a) ;; st_stop else ret tt).
Proof. destruct failed; [apply costs_ui, costs_stop | apply costs_ret]. Qed.

Lemma preflight_costs : costs P c (preflight cfg w).
Proof.
  unfold preflight.
  apply (costs_bind 0 c).
  { destruct (falsy (GROQ_API_KEY cfg)); [| apply costs_ret].
    apply costs_ui, costs_ui, costs_stop. }
  intros _. apply (costs_bind 0 c).
  { destruct (negb _); [| apply costs_ret].
    apply costs_ui, costs_ui, costs_stop. }
  intros _. apply costs_ui.
  apply (costs_le (c + (0 + (0 + 0)))); [lia |].
  apply costs_bind; [apply call_groq_api_costs |]. intros v.
  apply costs_bind; [apply costs_lift |]. intros failed.
  apply costs_bind.
  { destruct failed; [| apply costs_ret].
    apply costs_ui, costs_ui, costs_ui, costs_stop. }
  intros _. apply costs_ui.
  destruct (falsy (SERPER_API_KEY cfg)); [| apply costs_ret].
  intros t. eexists [_]. split; [reflexivity |].
  unfold count. simpl. rewrite ui_free. simpl. lia.
Qed.

Lemma pipeline_costs (topic language : pystr) (d : depth) :
  costs P (3 * s + (e + e) + stage_calls d * c)
    (pipeline cfg w topic language d).
Proof.
  unfold pipeline.
  apply costs_bind; [apply conduct_research_costs |]. intros data.
  replace (stage_calls d * c) with (c + (0 + (0 + (c + (0 + (0 + (stage_calls d - 2) * c))))))
    by (destruct d; simpl; lia).
  apply costs_bind; [apply costs_ui, call_groq_api_costs |]. intros report.
  apply costs_bind; [apply costs_lift |]. intros failed.
  apply costs_bind; [apply guard_costs |]. intros _.
  apply costs_bind; [apply costs_ui, call_groq_api_costs |]. intros article.
  apply costs_bind; [apply costs_lift |]. intros failed'.
  apply costs_bind; [apply guard_costs |]. intros _.
  destruct d; [apply costs_ret |].
  apply (costs_le (c + (0 + 0))); [simpl; lia |].
  apply costs_bind; [apply costs_ui, call_groq_api_costs |]. intros final.
  apply costs_bind; [apply costs_lift |]. intros failed''.
  destruct failed''; [apply costs_ui |]; apply costs_ret.
Qed.

Lemma main_block_costs (topic language : pystr) (d : depth) :
  costs P (3 * s + (e + e) + (1 + stage_calls d) * c)
    (main_block cfg w topic language d).
Proof.
  unfold main_block.
  apply (costs_le (c + ((3 * s + (e + e) + stage_calls d * c) + 0 + 0)));
    [lia |].
  apply costs_bind; [apply preflight_costs |]. intros _.
  apply costs_try.
  - apply costs_bind; [apply pipeline_costs |]. intros final.
    apply costs_ui, costs_ret.
  - intros x. unfold main_except. apply costs_ui, costs_ui, costs_ret.
Qed.

End Budget.

Ltac budget P s e c :=
  apply (main_block_costs P s e c);
  first [ intros; reflexivity | intros; unfold count; simpl; lia ].

(** X7: whatever the services answer, a run of the main block sends at most
    three search requests, two encyclopedia requests and, counting the
    connection test, three completion requests when the depth is Basic and
    four when it is Detailed: at most eight, respectively nine, network
    calls in all. *)
Theorem X7_network_budget (cfg : config) (w : world) (topic language : pystr)
    (d : depth) (t : trace) :
  exists es,
    fst (main_block cfg w topic language d t) = t ++ es
    /\ count is_search es <= 3
    /\ count is_encyclopedia es <= 2
    /\ count is_completion es <= 1 + stage_calls d
    /\ count network_call es <= 6 + stage_calls d.
Proof.
  assert (H1 : costs is_search 3 (main_block cfg w topic language d))
    by (apply (costs_le is_search (3 * 1 + (0 + 0) + (1 + stage_calls d) * 0));
        [lia | budget is_search 1 0 0]).
  assert (H2 : costs is_encyclopedia 2 (main_block cfg w topic language d))
    by (apply (costs_le is_encyclopedia (3 * 0 + (1 + 1) + (1 + stage_calls d) * 0));
        [lia | budget is_encyclopedia 0 1 0]).
  assert (H3 : costs is_completion (1 + stage_calls d)
                 (main_block cfg w topic language d))
    by (apply (costs_le is_completion (3 * 0 + (0 + 0) + (1 + stage_calls d) * 1));
        [lia | budget is_completion 0 0 1]).
  assert (H4 : costs network_call (6 + stage_calls d)
                 (main_block cfg w topic language d))
    by (apply (costs_le network_call (3 * 1 + (1 + 1) + (1 + stage_calls d) * 1));
        [lia | budget network_call 1 1 1]).
  destruct (H1 t) as (es & E & C1).
  destruct (H2 t) as (es2 & E2 & C2).
  destruct (H3 t) as (es3 & E3 & C3).
  destruct (H4 t) as (es4 & E4 & C4).
  rewrite E in E2, E3, E4.
  apply app_inv_head in E2, E3, E4. subst es2 es3 es4.
  exists es. auto.
Qed.

(** ** What every request to the completion service looks like *)

Lemma sent_prompt_length (prompt : pystr) : (len (sent_prompt prompt) <= 15035)%Z.
Proof.
  unfold sent_prompt, len.
  destruct (15000 <? Z.of_nat (List.length prompt))%Z eqn:E.
  - apply Z.ltb_lt in E. rewrite length_app, length_firstn.
    change (List.length truncation_marker) with 35. lia.
  - apply Z.ltb_ge in E. lia.
Qed.

Lemma request_ok_groq_data (cfg : config) (prompt : pystr) (mt : Z) :
  request_ok cfg (groq_data cfg prompt mt) = true.
Proof.
  unfold request_ok, groq_data. cbn [content max_tokens model authorization].
  rewrite !str_eqb_refl, !andb_true_r.
  apply andb_true_iff. split; apply Z.leb_le;
    [apply sent_prompt_length | lia].
Qed.

Section Requests.

Variable cfg : config.
Variable w : world.
Variable P : event -> bool.

Hypothesis others : forall e, not_completion e = true -> P e = true.
Hypothesis sent : forall prompt mt, P (GroqPost (groq_data cfg prompt mt)) = true.

Lemma ui_appends {A} (k : st) (a : value) (m : M A) :
  appends P m -> appends P (emit (Ui k a) ;; m).
Proof.
  intros Hm. apply appends_bind; [| intros _; exact Hm].
  apply appends_emit. apply others. reflexivity.
Qed.

Lemma call_groq_api_appends (prompt : pystr) (mt : Z) :
  appends P (call_groq_api cfg w prompt mt).
Proof.
  unfold call_groq_api.
  destruct (falsy (GROQ_API_KEY cfg)); [apply appends_ret |].
  destruct (negb _); [apply appends_ret |].
  apply appends_try; [| intros e; apply appends_ret].
  apply appends_bind; [| intros r; apply appends_lift].
  intros t. eexists [_]. unfold post_groq. simpl fst.
  split; [reflexivity |]. simpl. rewrite sent. reflexivity.
Qed.

Lemma guard_appends (failed : bool) (k : st) (a : value) :
  appends P (if failed then emit (Ui k a) ;; st_stop else ret tt).
Proof. destruct failed; [apply ui_appends, appends_stop | apply appends_ret]. Qed.

Lemma preflight_appends : appends P (preflight cfg w).
Proof.
  unfold preflight.
  apply appends_bind.
  { destruct (falsy (GROQ_API_KEY cfg)); [| apply appends_ret].
    apply ui_appends, ui_appends, appends_stop. }
  intros _. apply appends_bind.
  { destruct (negb _); [| apply appends_ret].
    apply ui_appends, ui_appends, appends_stop. }
  intros _. apply ui_appends.
  apply appends_bind; [apply call_groq_api_appends |]. intros v.
  apply appends_bind; [apply appends_lift |]. intros failed.
  apply appends_bind.
  { destruct failed; [| apply appends_ret].
    apply ui_appends, ui_appends, ui_appends, appends_stop. }
  intros _. apply ui_appends.
  destruct (falsy (SERPER_API_KEY cfg)); [| apply appends_ret].
  apply appends_emit. apply others. reflexivity.
Qed.

Lemma pipeline_appends (topic language : pystr) (d : depth) :
  appends P (pipeline cfg w topic language d).
Proof.
  unfold pipeline.
  apply appends_bind.
  { apply (appends_weaken quiet); [| apply conduct_research_quiet].
    intros e He. apply others. unfold quiet in He.
    apply andb_true_iff in He. tauto. }
  intros data.
  apply appends_bind; [apply ui_appends, call_groq_api_appends |]. intros report.
  apply appends_bind; [apply appends_lift |]. intros failed.
  apply appends_bind; [apply guard_appends |]. intros _.
  apply appends_bind; [apply ui_appends, call_groq_api_appends |]. intros article.
  apply appends_bind; [apply appends_lift |]. intros failed'.
  apply appends_bind; [apply guard_appends |]. intros _.
  destruct d; [apply appends_ret |].
  apply appends_bind; [apply ui_appends, call_groq_api_appends |]. intros final.
  apply appends_bind; [apply appends_lift |]. intros failed''.
  destruct failed''; [apply ui_appends |]; apply appends_ret.
Qed.

Lemma main_block_appends (topic language : pystr) (d : depth) :
  appends P (main_block cfg w topic language d).
Proof.
  unfold main_block.
  apply appends_bind; [apply preflight_appends |]. intros _.
  apply appends_try.
  - apply appends_bind; [apply pipeline_appends |]. intros final.
    apply ui_appends, appends_ret.
  - intros e. unfold main_except. apply ui_appends, ui_appends, appends_ret.
Qed.

End Requests.

Lemma completions_ok (cfg : config) (es : trace) :
  forallb (event_ok cfg) es = true ->
  forallb (request_ok cfg) (completions es) = true.
Proof.
  induction es as [| e es IH]; [reflexivity |].
  simpl. intros H. apply andb_true_iff in H. destruct H as [H1 H2].
  destruct e; simpl; auto. simpl in H1. rewrite H1. simpl. auto.
Qed.

(** X8: every request a run of the main block sends to the completion
    service carries a prompt of at most 15035 characters (15000 and the
    marker), asks for at most 4000 tokens, names the selected model and
    carries the key as its bearer token. *)
Theorem X8_every_request_is_bounded (cfg : config) (w : world)
    (topic language : pystr) (d : depth) (t : trace) :
  exists es,
    fst (main_block cfg w topic language d t) = t ++ es
    /\ forallb (request_ok cfg) (completions es) = true.
Proof.
  destruct (main_block_appends cfg w (event_ok cfg)) with
    (topic := topic) (language := language) (d := d) (t := t)
    as (es & E & H).
  - intros e He. destruct e; try reflexivity. discriminate.
  - intros prompt mt. apply request_ok_groq_data.
  - exists es. split; [exact E | apply completions_ok; exact H].
Qed.

(** ** How a run can end *)

Section Endings.

Variable cfg : config.
Variable w : world.
Variables topic language : pystr.

Lemma preflight_raises (t t' : trace) (e : exn) :
  preflight cfg w t = (t', Exc e) ->
  key_accepted cfg = true
  /\ t' = t ++ [Ui st_info (VStr ([128295%N] ++ py " Testing Groq API connection..."));
                GroqPost (test_request cfg)]
  /\ has_error w
       (reply cfg w
          (groq w (t ++ [Ui st_info (VStr ([128295%N]
                                           ++ py " Testing Groq API connection..."))])
             (test_request cfg)))
     = inl e.
Proof.
  intros H. destruct (key_accepted cfg) eqn:Hk;
    [| rewrite (preflight_rejected cfg w t Hk) in H; discriminate].
  split; [reflexivity |].
  pose proof Hk as Hk'. unfold key_accepted in Hk'.
  apply andb_true_iff in Hk'. destruct Hk' as [H1 H2]. apply negb_true_iff in H1.
  unfold preflight in H. rewrite H1, H2 in H. cbn [negb] in H.
  rewrite (bind_val _ _ t t tt eq_refl) in H.
  rewrite (bind_val _ _ t t tt eq_refl) in H.
  rewrite (bind_val _ _ t _ tt eq_refl) in H.
  rewrite (bind_val _ _ _ _ _ (call_groq_api_accepted cfg w _ _ _ Hk)) in H.
  unfold bind at 1 in H. unfold lift in H. fold (test_request cfg) in H.
  destruct (has_error w _) as [e' | failed] eqn:E.
  - cbn in H. injection H as <- <-. rewrite <- app_assoc. split; reflexivity.
  - exfalso. destruct failed.
    + cbn in H. discriminate.
    + unfold ret at 1 in H. cbv iota in H.
      rewrite (bind_val _ _ _ _ tt eq_refl) in H.
      rewrite (bind_val _ _ _ _ tt eq_refl) in H.
      destruct (falsy (SERPER_API_KEY cfg)); discriminate.
Qed.

Lemma main_except_returns (m : M (option value)) (t t' : trace) (e : exn) :
  try_except m main_except t <> (t', Exc e).
Proof.
  unfold try_except. destruct (m t) as [t1 [a | e1 |]]; discriminate.
Qed.

(** X9: an exception leaves the main block only from the test of line 318,
    which stands outside the [try]: when a run ends with an exception, the
    key was accepted, the connection test is the only network call made, and
    the exception is the one that ["Error" in test_result] raised on the
    answer. *)
Theorem X9_only_the_connection_test_raises (d : depth) (t t' : trace)
    (e : exn) :
  main_block cfg w topic language d t = (t', Exc e) ->
  key_accepted cfg = true
  /\ t' = t ++ [Ui st_info (VStr ([128295%N] ++ py " Testing Groq API connection..."));
                GroqPost (test_request cfg)]
  /\ has_error w
       (reply cfg w
          (groq w (t ++ [Ui st_info (VStr ([128295%N]
                                           ++ py " Testing Groq API connection..."))])
             (test_request cfg)))
     = inl e.
Proof.
  unfold main_block. intros H. unfold bind at 1 in H.
  destruct (preflight cfg w t) as [t0 [[] | e0 |]] eqn:Hp.
  - exfalso. exact (main_except_returns _ _ _ _ H).
  - injection H as <- <-. apply preflight_raises. exact Hp.
  - discriminate.
Qed.

Lemma pipeline_detailed_inv (t0 t' : trace) (final : value) :
  pipeline cfg w topic language Detailed t0 = (t', Val final) ->
  exists t1 data t2 report t3 article t4 polished,
    conduct_research cfg w topic t0 = (t1, Val data)
    /\ generate_research_report cfg w topic data t1 = (t2, Val report)
    /\ has_error w report = inr false
    /\ generate_article cfg w topic language report Detailed t2 = (t3, Val article)
    /\ has_error w article = inr false
    /\ improve_article cfg w article topic language t3 = (t4, Val polished)
    /\ ((has_error w polished = inr true /\ final = article
         /\ t' = t4 ++ [Ui st_warning
                          (VStr (py "Article improvement failed, using original version."))])
        \/ (has_error w polished = inr false /\ final = polished /\ t' = t4)).
Proof.
  unfold pipeline. intros H.
  apply bind_inv in H. destruct H as (t1 & data & Hc & H).
  apply bind_inv in H. destruct H as (t2 & report & Hr & H).
  apply bind_inv in H. destruct H as (t2' & failed & Hf & H).
  apply lift_inv in Hf. destruct Hf as [Hf ->].
  apply guard_inv in H. destruct H as [-> H].
  apply bind_inv in H. destruct H as (t3 & article & Ha & H).
  apply bind_inv in H. destruct H as (t3' & failed & Hf' & H).
  apply lift_inv in Hf'. destruct Hf' as [Hf' ->].
  apply guard_inv in H. destruct H as [-> H].
  apply bind_inv in H. destruct H as (t4 & polished & Hi & H).
  apply bind_inv in H. destruct H as (t4' & failed & Hf'' & H).
  apply lift_inv in Hf''. destruct Hf'' as [Hf'' ->].
  exists t1, data, t2, report, t3, article, t4, polished.
  repeat (split; [assumption |]).
  destruct failed.
  - left. unfold bind, emit, ret in H. injection H as <- <-. auto.
  - right. unfold ret in H. injection H as <- <-. auto.
Qed.

(** X10: a Detailed run that reaches the end has sent exactly four requests
    to the completion service, the connection test, the report, the
    article and the polish of that article, in this order.  The polished
    text is what the polish call returned for the article that the article
    call returned; when "Error" does not occur in it the run displays it
    and ends with it, and otherwise the run shows the warning, displays the
    article and ends with the article. *)
Theorem X10_detailed_run_makes_four_calls (t : trace) (final : value) :
  main_block cfg w topic language Detailed [] = (t, Val (Some final)) ->
  exists t1 t2 t3 data report article polished,
    completions t
    = [test_request cfg;
       groq_data cfg (research_prompt w topic data) 2500;
       groq_data cfg (article_prompt w topic language report Detailed) 3500;
       groq_data cfg (improvement_prompt w article topic language) 4000]
    /\ generate_research_report cfg w topic data t1 = (t2, Val report)
    /\ generate_article cfg w topic language report Detailed t2 = (t3, Val article)
    /\ improve_article cfg w article topic language t3
       = (t3 ++ [Ui st_write (VStr step4);
                 GroqPost (groq_data cfg
                             (improvement_prompt w article topic language) 4000)],
          Val polished)
    /\ polished
       = reply cfg w
           (groq w (t3 ++ [Ui st_write (VStr step4)])
              (groq_data cfg (improvement_prompt w article topic language) 4000))
    /\ ((has_error w polished = inr false
         /\ final = polished
         /\ t = t3 ++ [Ui st_write (VStr step4);
                       GroqPost (groq_data cfg
                                   (improvement_prompt w article topic language)
                                   4000);
                       Ui st_markdown polished])
        \/ (has_error w polished = inr true
            /\ final = article
            /\ t = t3 ++ [Ui st_write (VStr step4);
                          GroqPost (groq_data cfg
                                      (improvement_prompt w article topic language)
                                      4000);
                          Ui st_warning
                            (VStr (py "Article improvement failed, using original version."));
                          Ui st_markdown article])).
Proof.
  intros H.
  apply main_block_done_inv in H. destruct H as (t0 & tp & Hp & Hpl & ->).
  apply pipeline_detailed_inv in Hpl.
  destruct Hpl as (t1 & data & t2 & report & t3 & article & t4 & polished
                   & Hc & Hr & Hok & Ha & Hok' & Hi & Hend).
  pose proof (preflight_passed_key cfg w [] t0 Hp) as Hk.
  pose proof (preflight_passed cfg w Hk [] t0 Hp) as H0.
  pose proof (conduct_research_completions cfg w topic t0 t1 _ Hc) as H1.
  exists t1, t2, t3, data, report, article, polished.
  pose proof Hr as Hr'. pose proof Ha as Ha'. pose proof Hi as Hi'.
  rewrite (generate_research_report_run cfg w Hk) in Hr'. injection Hr' as E2 _.
  rewrite (generate_article_run cfg w Hk) in Ha'. injection Ha' as E3 _.
  rewrite (improve_article_run cfg w Hk) in Hi'. injection Hi' as E4 Epol.
  assert (Hcount : completions t4
                   = [test_request cfg;
                      groq_data cfg (research_prompt w topic data) 2500;
                      groq_data cfg (article_prompt w topic language report Detailed) 3500;
                      groq_data cfg (improvement_prompt w article topic language) 4000]).
  { rewrite <- E4, <- E3, <- E2. repeat rewrite completions_app.
    rewrite H1, H0. reflexivity. }
  split; [| split; [exact Hr | split; [exact Ha | split; [| split]]]].
  - destruct Hend as [(_ & _ & ->) | (_ & _ & ->)];
      repeat rewrite completions_app; rewrite Hcount; reflexivity.
  - rewrite E4. exact Hi.
  - symmetry. exact Epol.
  - destruct Hend as [(He & -> & ->) | (He & -> & ->)]; [right | left];
      (split; [exact He | split; [reflexivity |]]);
      rewrite <- E4, <- !app_assoc; reflexivity.
Qed.

End Endings.

Lemma X9_only_the_connection_test_raises_witness :
  key_accepted demo_cfg = true
  /\ snd (main_block demo_cfg null_test demo_topic english Basic [])
     = Exc (fault plain_runtime TypeError "in" VNone).
Proof.
  split.
  - apply (X9_only_the_connection_test_raises demo_cfg null_test demo_topic
             english Basic []
             (fst (main_block demo_cfg null_test demo_topic english Basic []))
             (fault plain_runtime TypeError "in" VNone)).
    reflexivity.
  - reflexivity.
Defined.

Lemma X10_detailed_run_makes_four_calls_witness :
  List.length
    (completions (fst (main_block demo_cfg all_succeed demo_topic english Detailed [])))
  = 4
  /\ snd (main_block demo_cfg all_succeed demo_topic english Detailed [])
     = Val (Some (VStr (py "A polished article."))).
Proof.
  destruct (X10_detailed_run_makes_four_calls demo_cfg all_succeed demo_topic
              english
              (fst (main_block demo_cfg all_succeed demo_topic english Detailed []))
              (VStr (py "A polished article.")))
    as (t1 & t2 & t3 & data & report & article & polished & Hc & _);
    [vm_compute; reflexivity |].
  split; [rewrite Hc; reflexivity | vm_compute; reflexivity].
Defined.

(** X11: the test the script applies to a result never takes a failed
    completion call for a success: when the transport raised, or the
    response is not a status 200 response with a content, "Error" occurs in
    what [call_groq_api] returns. *)
Theorem X11_failed_call_is_detected (cfg : config) (w : world)
    (o : exn + response) :
  failed_call w o = true -> has_error w (reply cfg w o) = inr true.
Proof.
  intros H. destruct (failed_call_reply cfg w o H) as (msg & -> & He).
  apply (error_text_in w (VStr msg)). exact He.
Qed.

Lemma X11_failed_call_is_detected_witness :
  has_error all_succeed (reply demo_cfg all_succeed (inr (status_only 503)))
  = inr true.
Proof.
  apply (X11_failed_call_is_detected demo_cfg all_succeed (inr (status_only 503))).
  reflexivity.
Defined.

(** ** What the prompts carry *)






(** ** The downloads *)

Lemma replace_char_none (old new : N) (s : pystr) :
  old <> new -> ~ In old (replace_char old new s).
Proof.
  intros Hne Hin. unfold replace_char in Hin. apply in_map_iff in Hin.
  destruct Hin as (c & Hc & _).
  destruct (N.eqb_spec c old); congruence.
Qed.

(** X13: the base of the download file names has the length of the topic,
    holds no space and no slash, and differs from the topic only where the
    topic has a space or a slash, which have become underscores. *)
Theorem X13_filename_base_is_clean (topic : pystr) :
  List.length (filename_base topic) = List.length topic
  /\ ~ In 32%N (filename_base topic)
  /\ ~ In 47%N (filename_base topic)
  /\ filename_base topic
     = map (fun c => if (c =? 32)%N || (c =? 47)%N then 95%N else c) topic.
Proof.
  unfold filename_base. repeat split.
  - unfold replace_char. rewrite !length_map. reflexivity.
  - intros Hin. unfold replace_char in Hin. rewrite map_map in Hin.
    apply in_map_iff in Hin. destruct Hin as (c & Hc & _).
    destruct (c =? 32)%N eqn:E1.
    + discriminate Hc.
    + destruct (c =? 47)%N; [discriminate Hc |].
      apply N.eqb_neq in E1. congruence.
  - apply replace_char_none. discriminate.
  - unfold replace_char. rewrite map_map. apply map_ext. intros c.
    destruct (c =? 32)%N; reflexivity.
Qed.


(** ** The test button of the sidebar *)

(** X15: what the sidebar's connection test reports.  Without a key it
    reports that no key was found, and with a key of the wrong form it
    reports an issue, in both cases without any network call.  With an
    accepted key it makes one completion call and reports success exactly
    when "working" or "Hello" occurs in the returned text; after a timeout,
    a connection failure, a status 401 or a status 429 it reports an
    issue. *)
Theorem X15_sidebar_test_report (cfg : config) (w : world) (t : trace) :
  (falsy (GROQ_API_KEY cfg) = true ->
   test_connection cfg w t
   = (t, Val (st_error, cross ++ py " No Groq API key found")))
  /\ (falsy (GROQ_API_KEY cfg) = false ->
      startswith (key_text (GROQ_API_KEY cfg)) (py "gsk_") = false ->
      test_connection cfg w t
      = (t, Val (st_error,
                 cross ++ py " Groq API issue: Try switching to: llama-3.1-8b-instant")))
  /\ (key_accepted cfg = true ->
      (forall msg,
          reply cfg w (groq w t (groq_data cfg (py "Say 'Hello! API working!'") 20))
          = VStr msg ->
          test_connection cfg w t
          = (t ++ [GroqPost (groq_data cfg (py "Say 'Hello! API working!'") 20)],
             Val (if str_in (py "working") msg || str_in (py "Hello") msg
                  then (st_success, tick ++ py " Groq API working!")
                  else (st_error,
                        cross ++ py " Groq API issue: Try switching to: llama-3.1-8b-instant"))))
      /\ ((exists e,
              groq w t (groq_data cfg (py "Say 'Hello! API working!'") 20) = inl e
              /\ (is_Timeout e = true \/ is_ConnectionError e = true))
          \/ (exists r,
                 groq w t (groq_data cfg (py "Say 'Hello! API working!'") 20) = inr r
                 /\ (status_code r = 401 \/ status_code r = 429)%Z) ->
          test_connection cfg w t
          = (t ++ [GroqPost (groq_data cfg (py "Say 'Hello! API working!'") 20)],
             Val (st_error,
                  cross ++ py " Groq API issue: Try switching to: llama-3.1-8b-instant")))).
Proof.
  assert (Hmsg : key_accepted cfg = true ->
                 forall msg,
                   reply cfg w (groq w t (groq_data cfg (py "Say 'Hello! API working!'") 20))
                   = VStr msg ->
                   test_connection cfg w t
                   = (t ++ [GroqPost (groq_data cfg (py "Say 'Hello! API working!'") 20)],
                      Val (if str_in (py "working") msg || str_in (py "Hello") msg
                           then (st_success, tick ++ py " Groq API working!")
                           else (st_error,
                                 cross ++ py " Groq API issue: Try switching to: llama-3.1-8b-instant")))).
  { intros Hk msg Hm. unfold test_connection.
    pose proof Hk as Hk'. unfold key_accepted in Hk'.
    apply andb_true_iff in Hk'. destruct Hk' as [H1 _]. rewrite H1.
    rewrite (bind_val _ _ _ _ _ (call_groq_api_accepted cfg w _ _ _ Hk)).
    rewrite Hm. unfold bind, lift, ret. cbn [py_in].
    destruct (str_in (py "working") msg); [reflexivity |].
    destruct (str_in (py "Hello") msg); reflexivity. }
  split; [| split].
  - intros Hm. unfold test_connection. rewrite Hm. reflexivity.
  - intros Hm Hs. unfold test_connection, call_groq_api. rewrite Hm, Hs.
    reflexivity.
  - intros Hk. split; [exact (Hmsg Hk) |].
    intros [(e & He & Hc) | (r & Hr & Hc)].
    + rewrite (Hmsg Hk (match groq_except e with VStr m => m | _ => [] end)).
      * unfold groq_except.
        destruct Hc as [Hc | Hc]; rewrite Hc;
          [| destruct (is_Timeout e)]; reflexivity.
      * rewrite He. unfold reply, groq_except.
        destruct Hc as [Hc | Hc]; rewrite Hc;
          [| destruct (is_Timeout e)]; reflexivity.
    + destruct Hc as [Hc | Hc].
      * rewrite (Hmsg Hk (py "Error 401: Invalid API key. Please check your Groq API key."));
          [reflexivity |].
        rewrite Hr. unfold reply, read_response. rewrite Hc. reflexivity.
      * rewrite (Hmsg Hk (py "Error 429: Rate limit exceeded. Please wait a moment and try again."));
          [reflexivity |].
        rewrite Hr. unfold reply, read_response. rewrite Hc. reflexivity.
Qed.

Lemma X15_sidebar_test_report_witness :
  snd (test_connection no_key_cfg all_succeed [])
  = Val (st_error, cross ++ py " No Groq API key found")
  /\ snd (test_connection bad_key_cfg all_succeed [])
     = Val (st_error,
            cross ++ py " Groq API issue: Try switching to: llama-3.1-8b-instant")
  /\ snd (test_connection demo_cfg (scripted [inl timed_out]) [])
     = Val (st_error,
            cross ++ py " Groq API issue: Try switching to: llama-3.1-8b-instant").
Proof.
  split; [| split].
  - destruct (X15_sidebar_test_report no_key_cfg all_succeed []) as (H & _ & _).
    rewrite (H eq_refl). reflexivity.
  - destruct (X15_sidebar_test_report bad_key_cfg all_succeed []) as (_ & H & _).
    rewrite (H eq_refl eq_refl). reflexivity.
  - destruct (X15_sidebar_test_report demo_cfg (scripted [inl timed_out]) [])
      as (_ & _ & H).
    destruct (H eq_refl) as [_ H'].
    rewrite H'; [reflexivity |].
    left. exists timed_out. split; [reflexivity | left; reflexivity].
Defined.

(** ** How the completion client reads a response *)

Section Responses.

Variable cfg : config.
Variable w : world.
Variable prompt : pystr.
Variable mt : Z.
Variable t : trace.
Variable r : response.

Hypothesis accepted : key_accepted cfg = true.
Hypothesis answered : groq w t (groq_data cfg prompt mt) = inr r.

Lemma call_groq_api_answered :
  call_groq_api cfg w prompt mt t
  = (t ++ [GroqPost (groq_data cfg prompt mt)],
     Val (match read_response cfg w r with
          | inl e => groq_except e
          | inr v => v
          end)).
Proof.
  rewrite (call_groq_api_accepted cfg w prompt mt t accepted), answered.
  reflexivity.
Qed.

(** X16: for a status other than 200 and 400 the body is not read: 401 and
    429 give their fixed advice, and any other status gives "Error", the
    status and at most the first 300 characters of the response text. *)
Theorem X16_status_decides_the_failure :
  ((status_code r = 401)%Z ->
   call_groq_api cfg w prompt mt t
   = (t ++ [GroqPost (groq_data cfg prompt mt)],
      Val (VStr (py "Error 401: Invalid API key. Please check your Groq API key."))))
  /\ ((status_code r = 429)%Z ->
      call_groq_api cfg w prompt mt t
      = (t ++ [GroqPost (groq_data cfg prompt mt)],
         Val (VStr (py "Error 429: Rate limit exceeded. Please wait a moment and try again."))))
  /\ ((status_code r <> 200)%Z -> (status_code r <> 400)%Z ->
      (status_code r <> 401)%Z -> (status_code r <> 429)%Z ->
      call_groq_api cfg w prompt mt t
      = (t ++ [GroqPost (groq_data cfg prompt mt)],
         Val (VStr (py "Error " ++ str_of_Z (status_code r) ++ py ": "
                    ++ firstn 300 (text r))))).
Proof.
  rewrite call_groq_api_answered. unfold read_response.
  split; [| split].
  - intros ->. reflexivity.
  - intros ->. reflexivity.
  - intros H200 H400 H401 H429.
    apply Z.eqb_neq in H200, H400, H401, H429.
    rewrite H200, H400, H401, H429. reflexivity.
Qed.

(** X17: the edges of the status 400 branch.  A body that is not JSON
    gives "Error 400: Invalid request format." with at most the first 200
    characters of the response text; a JSON object without an "error" field
    gives the generic 400 message with the two default texts; and a JSON
    body that is not an object gives the message of the last handler,
    "Error: Unexpected issue". *)
Theorem X17_bad_request_edges :
  (status_code r = 400)%Z ->
  (forall e, json r = inl e -> is_JSONDecodeError e = true ->
             call_groq_api cfg w prompt mt t
             = (t ++ [GroqPost (groq_data cfg prompt mt)],
                Val (VStr (py "Error 400: Invalid request format. Response: "
                           ++ firstn 200 (text r)))))
  /\ (forall info, json r = inr (VDict info) ->
                   lookup (py "error") info = None ->
                   call_groq_api cfg w prompt mt t
                   = (t ++ [GroqPost (groq_data cfg prompt mt)],
                      Val (VStr (py "Error 400: Unknown 400 error (Type: Unknown type)"))))
  /\ (forall items, json r = inr (VList items) ->
                    call_groq_api cfg w prompt mt t
                    = (t ++ [GroqPost (groq_data cfg prompt mt)],
                       Val (VStr (py "Error: Unexpected issue: "
                                  ++ fault_text (python w) AttributeError "get"
                                       (VList items))))).
Proof.
  intros Hs. rewrite call_groq_api_answered. unfold read_response.
  rewrite Hs. change (400 =? 400)%Z with true. cbv iota.
  unfold bad_request, bindE. split; [| split].
  - intros e -> ->. reflexivity.
  - intros info -> Hl. unfold py_get. rewrite Hl. reflexivity.
  - intros items ->. reflexivity.
Qed.

(** X18: the edges of a status 200 response.  A JSON object without
    "choices", or with an empty list of choices, gives "Error: Unexpected
    response format" followed by the body as Python prints it; a first
    choice without "message" gives "Error: Missing field in API
    response". *)
Theorem X18_success_edges :
  (status_code r = 200)%Z ->
  (forall body, json r = inr (VDict body) ->
                lookup (py "choices") body = None
                \/ lookup (py "choices") body = Some (VList []) ->
                call_groq_api cfg w prompt mt t
                = (t ++ [GroqPost (groq_data cfg prompt mt)],
                   Val (VStr (py "Error: Unexpected response format: "
                              ++ repr (python w) (VDict body)))))
  /\ (forall body choice rest,
         json r = inr (VDict body) ->
         lookup (py "choices") body = Some (VList (VDict choice :: rest)) ->
         lookup (py "message") choice = None ->
         call_groq_api cfg w prompt mt t
         = (t ++ [GroqPost (groq_data cfg prompt mt)],
            Val (VStr (py "Error: Missing field in API response: "
                       ++ fault_text (python w) KeyError "getitem"
                            (VStr (py "message")))))).
Proof.
  intros Hs. rewrite call_groq_api_answered. unfold read_response.
  rewrite Hs.
  change (200 =? 400)%Z with false. change (200 =? 401)%Z with false.
  change (200 =? 429)%Z with false. change (200 =? 200)%Z with true.
  cbn [negb]. unfold bindE, no_choices, bindE, py_in, py_getitem, py_len.
  split.
  - intros body -> [Hl | Hl]; rewrite Hl; reflexivity.
  - intros body choice rest -> Hl Hm. rewrite Hl. cbn [negb].
    unfold py_getitem0. rewrite Hm. reflexivity.
Qed.

End Responses.

Lemma X16_status_decides_the_failure_witness :
  snd (call_groq_api demo_cfg (scripted [inr (status_only 503)]) (py "hi") 20 [])
  = Val (VStr (py "Error 503: denied")).
Proof.
  destruct (X16_status_decides_the_failure demo_cfg
              (scripted [inr (status_only 503)]) (py "hi") 20 []
              (status_only 503) eq_refl eq_refl) as (_ & _ & H).
  rewrite H; [reflexivity | | | |]; discriminate.
Defined.

Lemma X17_bad_request_edges_witness :
  snd (call_groq_api demo_cfg (scripted [inr (status_only 400)]) (py "hi") 20 [])
  = Val (VStr (py "Error 400: Invalid request format. Response: denied")).
Proof.
  destruct (X17_bad_request_edges demo_cfg (scripted [inr (status_only 400)])
              (py "hi") 20 [] (status_only 400) eq_refl eq_refl eq_refl)
    as (H & _ & _).
  rewrite (H _ eq_refl eq_refl). reflexivity.
Defined.

Lemma X18_success_edges_witness :
  snd (call_groq_api demo_cfg
         (scripted [inr {| status_code := 200; text := py "{}";
                           json := inr (VDict []) |}]) (py "hi") 20 [])
  = Val (VStr (py "Error: Unexpected response format: <repr>")).
Proof.
  destruct (X18_success_edges demo_cfg
              (scripted [inr {| status_code := 200; text := py "{}";
                                json := inr (VDict []) |}])
              (py "hi") 20 []
              {| status_code := 200; text := py "{}"; json := inr (VDict []) |}
              eq_refl eq_refl eq_refl) as (H & _).
  rewrite (H [] eq_refl (or_introl eq_refl)). reflexivity.
Defined.
